(** * Discord platform adapter ([bot/platforms/discord.py])

    A shallow embedding of [DiscordPlatform]: request verification
    ([__init__], [verify_request]), slash-command parsing ([parse_message]),
    reply formatting ([format_response]) and the ping handshake
    ([handle_challenge]).

    Python values are embedded as the data [json.loads] produces, exceptions
    as an explicit result type, the [logger] calls (which change no value
    the functions return) are left out.

    The second part embeds the market review of [src/market_analyzer.py]:
    [MarketIndex.to_dict] and the methods of [MarketAnalyzer] that fetch the
    indices, search the news and write the report.  Yahoo Finance, the
    search service, the model and the clock are what the methods are run
    against: interfaces with state where calls have effects. *)

From Stdlib Require Import String Ascii List ZArith Bool Lia.
From Stdlib.Strings Require Import Byte.
From Stdlib Require Import DecimalString.
Import ListNotations.

Local Open Scope string_scope.
Local Open Scope Z_scope.

Set Warnings "-register-all".

(** ** Exceptions *)

(** The exception classes that the adapter can meet.  All of them derive
    from Python's [Exception]; [BadSignatureError] is PyNaCl's. *)
Inductive exn : Type :=
| AttributeError
| TypeError
| ValueError
| BadSignatureError.

(** A Python computation either returns a value or raises. *)
Inductive result (A : Type) : Type :=
| Return (a : A)
| Raise (e : exn).

Arguments Return {A} a.
Arguments Raise {A} e.

Definition bind {A B : Type} (m : result A) (k : A -> result B) : result B :=
  match m with
  | Return a => k a
  | Raise e => Raise e
  end.

Notation "x <- m ;; k" := (bind m (fun x => k))
  (at level 61, m at next level, right associativity).

(** [for x in xs: ys.append(f(x))], stopping at the first exception. *)
Fixpoint mapM {A B : Type} (f : A -> result B) (xs : list A) : result (list B) :=
  match xs with
  | [] => Return []
  | x :: xs' => y <- f x ;; ys <- mapM f xs' ;; Return (y :: ys)
  end.

(** ** Python values *)

(** Association lists stand for [dict]: they keep the insertion order, and
    a lookup takes the first binding of the key. *)
Fixpoint assoc {V : Type} (k : string) (d : list (string * V)) : option V :=
  match d with
  | [] => None
  | (k', v) :: d' => if String.eqb k k' then Some v else assoc k d'
  end.

(** The builtins that are not spelled out here.  Python's [float] is kept
    abstract: the adapter only prints floats ([float_repr]), compares them
    with an [int] ([float_eq_int]) and tests their truth value; a float is
    equal to one integer at most.  [str_repr] is [repr] on [str], with its
    quoting and escaping. *)
Class Builtins (float : Type) : Type := {
  float_repr : float -> string;
  float_eq_int : float -> Z -> bool;
  float_eq_int_unique :
    forall f a b, float_eq_int f a = true -> float_eq_int f b = true -> a = b;
  str_repr : string -> string
}.

Section PythonValues.

Context {float : Type} `{Builtins float}.

(** What [json.loads] builds. *)
Inductive value : Type :=
| PyNone
| PyBool (b : bool)
| PyInt (z : Z)
| PyFloat (f : float)
| PyStr (s : string)
| PyList (l : list value)
| PyDict (d : list (string * value)).

Definition pydict : Type := list (string * value).

(** [bool(v)]. *)
Definition truthy (v : value) : bool :=
  match v with
  | PyNone => false
  | PyBool b => b
  | PyInt z => negb (z =? 0)
  | PyFloat f => negb (float_eq_int f 0)
  | PyStr s => negb (String.eqb s "")
  | PyList l => match l with [] => false | _ => true end
  | PyDict d => match d with [] => false | _ => true end
  end.

(** [v == n] for an [int] literal [n]: [bool] is a subclass of [int]
    ([True == 1]), a [float] compares numerically, everything else
    differs from every number. *)
Definition eq_int (v : value) (n : Z) : bool :=
  match v with
  | PyBool b => (if b then 1 else 0) =? n
  | PyInt z => z =? n
  | PyFloat f => float_eq_int f n
  | _ => false
  end.

(** [x or y]. *)
Definition py_or (x y : value) : value := if truthy x then x else y.

(** [str(z)] on an [int]. *)
Definition int_str (z : Z) : string := NilZero.string_of_int (Z.to_int z).

(** [repr(v)]. *)
Fixpoint repr (v : value) : string :=
  match v with
  | PyNone => "None"
  | PyBool b => if b then "True" else "False"
  | PyInt z => int_str z
  | PyFloat f => float_repr f
  | PyStr s => str_repr s
  | PyList l => "[" ++ String.concat ", " (map repr l) ++ "]"
  | PyDict d =>
      "{" ++ String.concat ", "
               (map (fun kv => let '(k, x) := kv in str_repr k ++ ": " ++ repr x) d)
          ++ "}"
  end.

(** [str(v)], which is also what an f-string field [{v}] expands to. *)
Definition str (v : value) : string :=
  match v with
  | PyStr s => s
  | _ => repr v
  end.

(** [d.get(k)] and [d.get(k, default)] on a [dict]. *)
Definition get (d : pydict) (k : string) : value :=
  match assoc k d with
  | Some v => v
  | None => PyNone
  end.

Definition get_default (d : pydict) (k : string) (default : value) : value :=
  match assoc k d with
  | Some v => v
  | None => default
  end.

(** [v.get(k, default)] on an arbitrary value: only a [dict] has the
    method. *)
Definition attr_get (v : value) (k : string) (default : value) : result value :=
  match v with
  | PyDict d => Return (get_default d k default)
  | _ => Raise AttributeError
  end.

(** [for x in v]: the elements of a list, the keys of a dict, the
    characters of a string; other JSON values are not iterable. *)
Definition iter (v : value) : result (list value) :=
  match v with
  | PyList l => Return l
  | PyDict d => Return (map (fun kv => PyStr (fst kv)) d)
  | PyStr s => Return (map (fun c => PyStr (String c "")) (list_ascii_of_string s))
  | _ => Raise TypeError
  end.

End PythonValues.

Arguments value : clear implicits.
Arguments pydict : clear implicits.

(** ** Bytes *)

Definition bytes : Type := list byte.

(** [s.encode()]: strings are kept as their UTF-8 bytes. *)
Definition encode (s : string) : bytes := list_byte_of_string s.

(** CPython's [Py_ISSPACE]: tab, line feed, vertical tab, form feed,
    carriage return and space. *)
Definition is_space (c : ascii) : bool :=
  let n := N_of_ascii c in ((9 <=? n) && (n <=? 13) || (n =? 32))%N.

(** The value of a hexadecimal digit. *)
Definition hex_digit (c : ascii) : option N :=
  let n := N_of_ascii c in
  if ((48 <=? n) && (n <=? 57))%N then Some (n - 48)%N
  else if ((97 <=? n) && (n <=? 102))%N then Some (n - 87)%N
  else if ((65 <=? n) && (n <=? 70))%N then Some (n - 55)%N
  else None.

(** [bytes.fromhex(s)]: pairs of hexadecimal digits, white space allowed
    between the pairs; anything else is a [ValueError]. *)
Fixpoint fromhex (s : string) : result bytes :=
  match s with
  | EmptyString => Return []
  | String c s' =>
      if is_space c then fromhex s'
      else
        match hex_digit c, s' with
        | Some top, String d s'' =>
            match hex_digit d with
            | Some bot =>
                bs <- fromhex s'' ;;
                Return (byte_of_ascii (ascii_of_N (16 * top + bot)) :: bs)
            | None => Raise ValueError
            end
        | _, _ => Raise ValueError
        end
  end.

(** [try: m except Exception: h]; every exception of [exn] is an
    [Exception]. *)
Definition try_except {A : Type} (m : result A) (h : exn -> result A) : result A :=
  match m with
  | Return a => Return a
  | Raise e => h e
  end.

(** ** Request verification *)

(** PyNaCl's [nacl.signing.VerifyKey]: the constructor, which raises on
    key material it does not accept, and [verify(smessage, signature)],
    which returns the message or raises ([BadSignatureError] on a
    mismatch). *)
Class Nacl (VerifyKey : Type) : Type := {
  VerifyKey_new : bytes -> result VerifyKey;
  VerifyKey_verify : VerifyKey -> bytes -> bytes -> result bytes
}.

Section Verifier.

Context {VerifyKey : Type} `{Nacl VerifyKey}.

(** The instance attributes of [DiscordPlatform]. *)
Record DiscordPlatform : Type := {
  public_key : option string;
  _verify_key : option VerifyKey
}.

(** [DiscordPlatform.__init__]. *)
Definition __init__ (public_key : option string) : DiscordPlatform :=
  {| public_key := public_key;
     _verify_key :=
       match public_key with
       | Some k =>
           if negb (String.eqb k "") then
             match (raw <- fromhex k ;; VerifyKey_new raw) with
             | Return vk => Some vk
             | Raise _ => None
             end
           else None
       | None => None
       end |}.

(** [headers] is a [Dict[str, str]]; [headers.get(k)] is [assoc k headers]. *)
Definition headers_t : Type := list (string * string).

(** [bool(x)] for [x] a [str] or [None]. *)
Definition present (x : option string) : bool :=
  match x with
  | Some s => negb (String.eqb s "")
  | None => false
  end.

(** [x or y] on header values. *)
Definition or_else (x y : option string) : option string :=
  if present x then x else y.

Definition signature_header (headers : headers_t) : option string :=
  or_else (assoc "x-signature-ed25519" headers) (assoc "X-Signature-Ed25519" headers).

Definition timestamp_header (headers : headers_t) : option string :=
  or_else (assoc "x-signature-timestamp" headers) (assoc "X-Signature-Timestamp" headers).

(** [x.encode()] and [bytes.fromhex(x)] where [x] may be [None]. *)
Definition encode_opt (x : option string) : result bytes :=
  match x with
  | Some s => Return (encode s)
  | None => Raise AttributeError
  end.

Definition fromhex_opt (x : option string) : result bytes :=
  match x with
  | Some s => fromhex s
  | None => Raise TypeError
  end.

(** [DiscordPlatform.verify_request]. *)
Definition verify_request (self : DiscordPlatform) (headers : headers_t)
    (body : bytes) : result bool :=
  match _verify_key self with
  | None => Return true
  | Some vk =>
      let signature := signature_header headers in
      let timestamp := timestamp_header headers in
      if negb (present signature) || negb (present timestamp) then Return false
      else
        try_except
          (ts <- encode_opt timestamp ;;
           let message := (ts ++ body)%list in
           sig <- fromhex_opt signature ;;
           _ <- VerifyKey_verify vk message sig ;;
           Return true)
          (fun e =>
             match e with
             | BadSignatureError => Return false
             | _ => Return false
             end)
  end.

(** A header is absent under both spellings the adapter looks up. *)
Definition header_absent (lower_name canonical_name : string) (headers : headers_t) : Prop :=
  assoc lower_name headers = None /\ assoc canonical_name headers = None.

(** The configured string is no key material: it is not hexadecimal, or
    PyNaCl refuses the bytes. *)
Definition bad_key_material (k : string) : Prop :=
  (exists e, fromhex k = Raise e)
  \/ (exists raw e, fromhex k = Return raw /\ VerifyKey_new raw = Raise e).

End Verifier.

Arguments DiscordPlatform : clear implicits.

(** ** The message model ([bot.models]) *)

(** Modelled from the spec: [ChatType] of [bot.models], of which the
    adapter uses the members [GROUP] and [PRIVATE] ("chat_type ∈ {PRIVATE,
    GROUP}"). *)
Inductive ChatType : Type :=
| GROUP
| PRIVATE.

Section Parser.

Context {float : Type} `{Builtins float}.

Local Abbreviation value := (value float).
Local Abbreviation pydict := (pydict float).

(** Modelled from the spec: [BotMessage] of [bot.models], with the fields
    the spec lists for the canonical message, which are the keyword
    arguments [parse_message] passes.  The identifiers are whatever the
    payload holds under their keys, hence values. *)
Record BotMessage : Type := {
  platform : string;
  message_id : value;
  user_id : value;
  user_name : value;
  chat_id : value;
  chat_type : ChatType;
  content : string;
  raw_content : string;
  mentioned : bool;
  mentions : list value;
  raw_data : pydict
}.

(** Modelled from the spec: [WebhookResponse] of [bot.models], the
    outbound envelope with its two terminal variants, and its
    constructor [WebhookResponse.success]. *)
Inductive WebhookResponse : Type :=
| Success (payload : value)
| Failure (reason : string).

Definition success (body : value) : WebhookResponse := Success body.

(** [str(option.get("value", ""))], the body of the loop over the
    options. *)
Definition option_arg (option : value) : result string :=
  v <- attr_get option "value" (PyStr "") ;; Return (str v).

(** [DiscordPlatform.parse_message]. *)
Definition parse_message (data : pydict) : result (option BotMessage) :=
  let interaction_type := get data "type" in
  if eq_int interaction_type 1 then Return None
  else if negb (eq_int interaction_type 2) then Return None
  else
    let command_data := get_default data "data" (PyDict []) in
    command_name <- attr_get command_data "name" (PyStr "") ;;
    options <- attr_get command_data "options" (PyList []) ;;
    let content := "/" ++ str command_name in
    content <-
      (if truthy options then
         items <- iter options ;;
         args <- mapM option_arg items ;;
         match args with
         | [] => Return content
         | _ :: _ => Return ("/" ++ str command_name ++ " " ++ String.concat " " args)
         end
       else Return content) ;;
    user <- attr_get (get_default data "member" (PyDict [])) "user"
              (get_default data "user" (PyDict [])) ;;
    user_id <- attr_get user "id" (PyStr "") ;;
    user_name <- attr_get user "username" (PyStr "unknown") ;;
    let channel_id := get_default data "channel_id" (PyStr "") in
    let guild_id := get_default data "guild_id" (PyStr "") in
    Return (Some {|
      platform := "discord";
      message_id := get_default data "id" (PyStr "");
      user_id := user_id;
      user_name := user_name;
      chat_id := py_or channel_id guild_id;
      chat_type := if truthy guild_id then GROUP else PRIVATE;
      content := content;
      raw_content := content;
      mentioned := false;
      mentions := [];
      raw_data := data
    |}).

(** The [response] argument of [format_response] is any Python object:
    a plain value (a [str], say; the builtin types have no attribute
    [text]) or an instance of a class, with its attributes and with what
    [str] makes of it. *)
Inductive pyobject : Type :=
| Plain (v : value)
| Instance (attrs : pydict) (as_str : string).

(** [hasattr(o, name)], [o.name] and [str(o)]. *)
Definition hasattr (o : pyobject) (name : string) : bool :=
  match o with
  | Plain _ => false
  | Instance attrs _ =>
      match assoc name attrs with
      | Some _ => true
      | None => false
      end
  end.

Definition getattr (o : pyobject) (name : string) : result value :=
  match o with
  | Plain _ => Raise AttributeError
  | Instance attrs _ =>
      match assoc name attrs with
      | Some v => Return v
      | None => Raise AttributeError
      end
  end.

Definition object_str (o : pyobject) : string :=
  match o with
  | Plain v => str v
  | Instance _ s => s
  end.

(** [DiscordPlatform.format_response]. *)
Definition format_response (response : pyobject) (message : BotMessage)
    : result WebhookResponse :=
  text <- (if hasattr response "text" then getattr response "text"
           else Return (PyStr (object_str response))) ;;
  let discord_response :=
    PyDict [("type", PyInt 4);
            ("data", PyDict [("content", text); ("flags", PyInt 0)])] in
  Return (success discord_response).

(** [DiscordPlatform.handle_challenge]. *)
Definition handle_challenge (data : pydict) : result (option WebhookResponse) :=
  if eq_int (get data "type") 1 then
    Return (Some (success (PyDict [("type", PyInt 1)])))
  else Return None.

End Parser.

(** ** Shapes of payloads and of header mappings *)

Section Shapes.

Context {float : Type} `{Builtins float}.

Local Abbreviation value := (value float).
Local Abbreviation pydict := (pydict float).

(** The payload is a command invocation: its ["type"] is equal to [2]. *)
Definition is_command (data : pydict) : bool := eq_int (get data "type") 2.

Definition is_dict (v : value) : bool :=
  match v with
  | PyDict _ => true
  | _ => false
  end.

(** ["options"], when it is there and not empty, is a list of mappings. *)
Definition options_ok (options : value) : bool :=
  negb (truthy options)
  || match options with
     | PyList l => forallb is_dict l
     | _ => false
     end.

(** ["data"], when it is there, is a mapping with well-shaped options. *)
Definition command_ok (data : pydict) : bool :=
  match get_default data "data" (PyDict []) with
  | PyDict command_data => options_ok (get_default command_data "options" (PyList []))
  | _ => false
  end.

(** ["member"], when it is there, is a mapping, and the actor record
    ([member.user], else ["user"]), when there is one, is a mapping. *)
Definition actor_ok (data : pydict) : bool :=
  match get_default data "member" (PyDict []) with
  | PyDict member =>
      is_dict (get_default member "user" (get_default data "user" (PyDict [])))
  | _ => false
  end.

(** The value an option carries: what is under ["value"], the empty
    string when there is nothing. *)
Definition option_value (option : value) : value :=
  match option with
  | PyDict d => get_default d "value" (PyStr "")
  | _ => PyStr ""
  end.

(** The payload has no [member.user] record. *)
Definition no_member_user (data : pydict) : Prop :=
  assoc "member" data = None
  \/ exists member, assoc "member" data = Some (PyDict member) /\ assoc "user" member = None.

(** The block of [parse_message] that builds [content]. *)
Definition content_block (command_name options : value) : result string :=
  if truthy options then
    items <- iter options ;;
    args <- mapM option_arg items ;;
    match args with
    | [] => Return ("/" ++ str command_name)
    | _ :: _ => Return ("/" ++ str command_name ++ " " ++ String.concat " " args)
    end
  else Return ("/" ++ str command_name).

(** The payload holds a non-empty (true) value under [key]. *)
Definition carries (data : pydict) (key : string) : Prop :=
  exists v, assoc key data = Some v /\ truthy v = true.

(** Scope resolution decided by the mere presence of the keys: the
    channel id when there is one, else the guild id, else the empty
    string; a group chat exactly when there is a guild id. *)
Definition chat_id_by_presence (data : pydict) : Prop :=
  forall m, parse_message data = Return (Some m) ->
    chat_id m = match assoc "channel_id" data with
                | Some c => c
                | None => match assoc "guild_id" data with
                          | Some g => g
                          | None => PyStr ""
                          end
                end.

Definition chat_type_by_presence (data : pydict) : Prop :=
  forall m, parse_message data = Return (Some m) ->
    (chat_type m = GROUP <-> assoc "guild_id" data <> None).

(** The actor fields of a message, read off the actor record: what is
    under ["id"] and ["username"], and the defaults when there is nothing. *)
Definition actor_fields (user : pydict) (m : BotMessage) : Prop :=
  (forall v, assoc "id" user = Some v -> user_id m = v)
  /\ (assoc "id" user = None -> user_id m = PyStr "")
  /\ (forall v, assoc "username" user = Some v -> user_name m = v)
  /\ (assoc "username" user = None -> user_name m = PyStr "unknown").

End Shapes.

(** Lower case of an ASCII letter, and of a header name. *)
Definition lower_ascii (c : ascii) : ascii :=
  let n := N_of_ascii c in
  if ((65 <=? n) && (n <=? 90))%N then ascii_of_N (n + 32) else c.

Fixpoint lower (s : string) : string :=
  match s with
  | EmptyString => EmptyString
  | String c s' => String (lower_ascii c) (lower s')
  end.

(** The same header mapping with its key names in lower case. *)
Definition lower_keys (headers : list (string * string)) : list (string * string) :=
  map (fun kv => (lower (fst kv), snd kv)) headers.



(** ** Instances to run the adapter on *)

(** Payloads whose numbers are all integers: there is no float. *)
#[export] Instance no_float : Builtins Empty_set := {
  float_repr := fun f => match f with end;
  float_eq_int := fun f _ => match f with end;
  float_eq_int_unique := fun f => match f with end;
  str_repr := fun s => "'" ++ s ++ "'"
}.

(** A stand-in for PyNaCl with its interface and its length checks (a key
    has 32 bytes, a signature 64): the signature of a message under a key
    is the key followed by 32 copies of the sum of the message's bytes
    modulo 256.  It serves to run [verify_request] on concrete requests. *)
Definition checksum (message : bytes) : byte :=
  byte_of_ascii
    (ascii_of_N (fold_right (fun b acc => (Byte.to_N b + acc) mod 256)%N 0%N message)).

Definition bytes_eqb (a b : bytes) : bool :=
  if list_eq_dec Byte.byte_eq_dec a b then true else false.

#[export] Instance checksum_nacl : Nacl bytes := {
  VerifyKey_new := fun raw =>
    if (length raw =? 32)%nat then Return raw else Raise ValueError;
  VerifyKey_verify := fun key message signature =>
    if negb (length signature =? 64)%nat then Raise ValueError
    else if bytes_eqb signature (key ++ repeat (checksum message) 32)%list
         then Return message
         else Raise BadSignatureError
}.

(** Payloads to run the parser on. *)
Definition price_command : pydict Empty_set :=
  [("type", PyInt 2);
   ("data", PyDict [("name", PyStr "price");
                    ("options", PyList [PyDict [("value", PyStr "AAPL")]])]);
   ("member", PyDict [("user", PyDict [("id", PyStr "42"); ("username", PyStr "ann")])]);
   ("guild_id", PyStr "g1"); ("channel_id", PyStr "c1"); ("id", PyStr "i1")].

Definition ping_command : pydict Empty_set :=
  [("type", PyInt 2); ("data", PyDict [("name", PyStr "ping")]);
   ("user", PyDict [("id", PyStr "7")])].

Definition bare_command : pydict Empty_set := [("type", PyInt 2)].

Definition empty_channel_command : pydict Empty_set :=
  [("type", PyInt 2); ("channel_id", PyStr ""); ("guild_id", PyStr "g1")].

Definition empty_guild_command : pydict Empty_set :=
  [("type", PyInt 2); ("channel_id", PyStr "c1"); ("guild_id", PyStr "")].

(** A command invocation whose ["data"] is [null]. *)
Definition null_data_command : pydict Empty_set :=
  [("type", PyInt 2); ("data", PyNone)].

(** The message that [bare_command] is parsed to, and responses to format. *)
Definition bare_message : BotMessage (float := Empty_set) :=
  {| platform := "discord";
     message_id := PyStr "";
     user_id := PyStr "";
     user_name := PyStr "unknown";
     chat_id := PyStr "";
     chat_type := PRIVATE;
     content := "/";
     raw_content := "/";
     mentioned := false;
     mentions := [];
     raw_data := bare_command |}.

Definition hello_response : pyobject (float := Empty_set) :=
  Instance [("text", PyStr "hello")] "<BotResponse>".

Definition plain_response : pyobject (float := Empty_set) := Plain (PyStr "plain text").

(** A key that [checksum_nacl] accepts, and a request signed under it:
    the time stamp is ["1"], the body is empty. *)
Definition sample_key : string :=
  "000102030405060708090a0b0c0d0e0f101112131415161718191a1b1c1d1e1f".

Definition sample_signature : string :=
  "000102030405060708090a0b0c0d0e0f101112131415161718191a1b1c1d1e1f"
  ++ "3131313131313131313131313131313131313131313131313131313131313131".

Definition upper_case_headers : list (string * string) :=
  [("X-SIGNATURE-ED25519", sample_signature); ("X-SIGNATURE-TIMESTAMP", "1")].

Definition canonical_headers : list (string * string) :=
  [("X-Signature-Ed25519", sample_signature); ("X-Signature-Timestamp", "1")].

(** ** More of the adapter *)

(** [DiscordPlatform.platform_name]. *)
Definition platform_name : string := "discord".

Section Errors.

Context {float : Type} `{Builtins float}.

(** The exception that the loop over ill-shaped options ends in: a number
    or a boolean is not iterable, and the characters of a string, the keys
    of a dict and the list elements that are no mappings have no [get]. *)
Definition options_error (options : value float) : exn :=
  match options with
  | PyBool _ | PyInt _ | PyFloat _ => TypeError
  | _ => AttributeError
  end.

(** The exception for an ill-shaped command part: ["data"] is no mapping,
    or its options are ill-shaped. *)
Definition command_error (data : pydict float) : exn :=
  match get_default data "data" (PyDict []) with
  | PyDict command_data => options_error (get_default command_data "options" (PyList []))
  | _ => AttributeError
  end.

(** The text that follows the command name: nothing without options, else
    a space and the string forms of the options' values, joined by spaces. *)
Definition arguments_text (options : value float) : string :=
  match options with
  | PyList (o :: os) =>
      " " ++ String.concat " " (map (fun o => str (option_value o)) (o :: os))
  | _ => ""
  end.

End Errors.

(** Ill-shaped command invocations, and one without a command name. *)
Definition null_member_command : pydict Empty_set :=
  [("type", PyInt 2); ("data", PyDict [("name", PyStr "ping")]); ("member", PyNone)].

Definition numeric_options_command : pydict Empty_set :=
  [("type", PyInt 2); ("data", PyDict [("name", PyStr "ping"); ("options", PyInt 5)])].

Definition nameless_command : pydict Empty_set :=
  [("type", PyInt 2);
   ("data", PyDict [("options", PyList [PyDict [("value", PyInt 7)]; PyDict []])])].

Definition null_options_command : pydict Empty_set :=
  [("type", PyInt 2); ("data", PyDict [("name", PyInt 12); ("options", PyNone)])].

(** * Market review ([src/market_analyzer.py]) *)

(** ** Text and numbers *)

Definition nl : string := String "010"%char "".

(** A byte that continues a UTF-8 character. *)
Definition is_continuation (c : ascii) : bool :=
  let n := N_of_ascii c in ((128 <=? n) && (n <=? 191))%N.

(** [s[:n]] on a [str]: the first [n] characters, each with all its
    bytes. *)
Fixpoint take_chars (n : nat) (s : string) : string :=
  match s with
  | EmptyString => EmptyString
  | String c s' =>
      if is_continuation c then String c (take_chars n s')
      else
        match n with
        | O => EmptyString
        | S n' => String c (take_chars n' s')
        end
  end.

(** [str.strip] and [str.split] without arguments, which go by Unicode
    white space, are kept abstract. *)
Class Strings : Type := {
  str_strip : string -> string;
  str_split : string -> list string
}.

(** The arithmetic on [float] that the module uses: the literal [0.0],
    subtraction, division (used behind a test that the divisor is not
    zero), multiplication by an [int], [abs], the comparisons [f > n] and
    [f < n] with an [int], and [format(f, ".2f")]; [int_format_2f] is
    [format(n, ".2f")] on an [int], which converts to [float] first and
    fails on an [int] too large for it. *)
Class Floats (float : Type) `{Builtins float} : Type := {
  fzero : float;
  fsub : float -> float -> float;
  fdiv : float -> float -> float;
  fmul_int : float -> Z -> float;
  fabs : float -> float;
  fgt_int : float -> Z -> bool;
  flt_int : float -> Z -> bool;
  float_format_2f : float -> string;
  int_format_2f : Z -> result string;
  fgt_int_mono :
    forall f a b, a <= b -> fgt_int f b = true -> fgt_int f a = true;
  fgt_not_flt : forall f n, fgt_int f n = true -> flt_int f n = false;
  feq_not_gt : forall f n, float_eq_int f n = true -> fgt_int f n = false;
  feq_not_lt : forall f n, float_eq_int f n = true -> flt_int f n = false;
  feq_gt_below :
    forall f n m, float_eq_int f n = true -> m < n -> fgt_int f m = true;
  int_format_2f_zero : int_format_2f 0 = Return "0.00"
}.

Section Numbers.

Context {float : Type} `{Floats float}.

(** A number: an [int] or a [float]. *)
Inductive num : Type :=
| NInt (z : Z)
| NFloat (f : float).

Definition num_value (n : num) : value float :=
  match n with
  | NInt z => PyInt z
  | NFloat f => PyFloat f
  end.

(** [n > k] and [n < k] for an [int] literal [k], [abs(n)], [bool(n)] and
    [format(n, ".2f")]. *)
Definition num_gt (n : num) (k : Z) : bool :=
  match n with
  | NInt z => k <? z
  | NFloat f => fgt_int f k
  end.

Definition num_lt (n : num) (k : Z) : bool :=
  match n with
  | NInt z => z <? k
  | NFloat f => flt_int f k
  end.

Definition num_abs (n : num) : num :=
  match n with
  | NInt z => NInt (Z.abs z)
  | NFloat f => NFloat (fabs f)
  end.

Definition num_truthy (n : num) : bool := truthy (num_value n).

Definition format_2f (n : num) : result string :=
  match n with
  | NInt z => int_format_2f z
  | NFloat f => Return (float_format_2f f)
  end.

(** ** The market data *)

(** The dataclass [MarketIndex]. *)
Record MarketIndex : Type := {
  code : string;
  name : string;
  current : num;
  change : num;
  change_pct : num;
  open : num;
  high : num;
  low : num;
  prev_close : num;
  volume : num;
  amount : num;
  amplitude : num
}.

(** [MarketIndex.to_dict]. *)
Definition to_dict (self : MarketIndex) : pydict float :=
  [("code", PyStr (code self));
   ("name", PyStr (name self));
   ("current", num_value (current self));
   ("change", num_value (change self));
   ("change_pct", num_value (change_pct self));
   ("open", num_value (open self));
   ("high", num_value (high self));
   ("low", num_value (low self));
   ("volume", num_value (volume self));
   ("amount", num_value (amount self));
   ("amplitude", num_value (amplitude self))].

(** The dataclass [MarketOverview]. *)
Record MarketOverview : Type := {
  date : string;
  indices : list MarketIndex
}.

End Numbers.

Arguments num : clear implicits.
Arguments MarketIndex : clear implicits.
Arguments MarketOverview : clear implicits.

(** ** The review *)

(** A loop that updates an accumulator and stops at the first exception. *)
Fixpoint foldM {A B : Type} (f : B -> A -> result B) (xs : list A) (acc : B)
    : result B :=
  match xs with
  | [] => Return acc
  | x :: xs' => acc' <- f acc x ;; foldM f xs' acc'
  end.

(** [enumerate(xs, start)]. *)
Fixpoint enumerate {A : Type} (start : Z) (xs : list A) : list (Z * A) :=
  match xs with
  | [] => []
  | x :: xs' => (start, x) :: enumerate (start + 1) xs'
  end.

(** A news item is a [SearchResult] object, given by its attributes, or a
    dict; the texts they hold are a [str] or [None]. *)
Inductive news_item : Type :=
| NewsObject (attrs : list (string * option string))
| NewsDict (d : list (string * option string)).

(** [n.name] on an object. *)
Definition attribute (attrs : list (string * option string)) (name : string)
    : result (option string) :=
  match assoc name attrs with
  | Some v => Return v
  | None => Raise AttributeError
  end.

(** [d.get(key, "")] on a dict. *)
Definition dict_get (d : list (string * option string)) (key : string) : option string :=
  match assoc key d with
  | Some v => v
  | None => Some ""
  end.

(** [x[:n]]: [None] cannot be sliced. *)
Definition slice_to (n : nat) (x : option string) : result string :=
  match x with
  | Some s => Return (take_chars n s)
  | None => Raise TypeError
  end.

(** The AI analyzer, as far as the review uses it: [is_available()], the
    flag [_use_openai], [_call_openai_api(prompt, generation_config)] and
    [_model.generate_content(prompt, generation_config=...)], whose response
    may be [None] and whose [text] may be [None].  The generation
    configuration is the same at every call. *)
Record Analyzer : Type := {
  is_available : result bool;
  _use_openai : bool;
  _call_openai_api : string -> result (option string);
  generate_content : string -> result (option (option string))
}.

Section Review.

Context {float : Type} `{Floats float} `{Strings}.

Local Abbreviation MarketIndex := (MarketIndex float).
Local Abbreviation MarketOverview := (MarketOverview float).

(** The marker of the direction of a change, as both reports compute it. *)
Definition direction_of (change_pct : num float) : string :=
  if num_gt change_pct 0 then "↑" else if num_lt change_pct 0 then "↓" else "-".

(** The mood of the market, read off the first NASDAQ index: the first
    block of [_generate_template_review]. *)
Definition market_mood (indices : list MarketIndex) : string :=
  let nasdaq_index := find (fun idx => String.eqb (code idx) "^IXIC") indices in
  match nasdaq_index with
  | Some nasdaq_index =>
      if num_gt (change_pct nasdaq_index) 1 then "强势上涨"
      else if num_gt (change_pct nasdaq_index) 0 then "小幅上涨"
      else if num_gt (change_pct nasdaq_index) (-1) then "小幅下跌"
      else "明显下跌"
  | None => "震荡整理"
  end.

(** The f-string of the template report, as a function of what it
    interpolates. *)
Definition report_text (date market_mood indices_text clock : string) : string :=
  "## 📊 " ++ date ++ " 全球市场复盘" ++ nl
 ++ nl ++ "### 一、市场总结" ++ nl
 ++ "今日全球市场整体呈现**" ++ market_mood ++ "**态势。" ++ nl
 ++ nl ++ "### 二、主要指数" ++ nl
 ++ indices_text ++ nl
 ++ nl ++ "### 三、风险提示" ++ nl
 ++ "市场有风险，投资需谨慎。以上数据仅供参考，不构成投资建议。" ++ nl
 ++ nl ++ "---" ++ nl
 ++ "*复盘时间: " ++ clock ++ "*" ++ nl.

(** [MarketAnalyzer._generate_template_review]; [clock] is what
    [datetime.now().strftime("%H:%M")] gives. *)
Definition _generate_template_review (clock : string) (overview : MarketOverview)
    (news : list news_item) : result string :=
  let market_mood := market_mood (indices overview) in
  indices_text <-
    foldM (fun indices_text idx =>
             let direction := direction_of (change_pct idx) in
             current_text <- format_2f (current idx) ;;
             pct_text <- format_2f (num_abs (change_pct idx)) ;;
             Return (indices_text ++ "- **" ++ name idx ++ "**: " ++ current_text
                       ++ " (" ++ direction ++ pct_text ++ "%)" ++ nl))
          (indices overview) "" ;;
  Return (report_text (date overview) market_mood indices_text clock).

(** The title and the snippet of a news item, cut to 50 and to 100
    characters. *)
Definition title_and_snippet (n : news_item) : result (string * string) :=
  match n with
  | NewsObject attrs =>
      match assoc "title" attrs with
      | Some _ =>
          t <- attribute attrs "title" ;;
          title <- (if present t then slice_to 50 t else Return "") ;;
          s <- attribute attrs "snippet" ;;
          snippet <- (if present s then slice_to 100 s else Return "") ;;
          Return (title, snippet)
      | None => Raise AttributeError
      end
  | NewsDict d =>
      title <- slice_to 50 (dict_get d "title") ;;
      snippet <- slice_to 100 (dict_get d "snippet") ;;
      Return (title, snippet)
  end.

(** The f-string of the prompt, as a function of what it interpolates. *)
Definition prompt_text (date indices_text news_text : string) : string :=
  "你是一位专业的美股/港股市场分析师，请根据以下数据生成一份简洁的大盘复盘报告。" ++ nl
 ++ nl ++ "【重要】输出要求：" ++ nl
 ++ "- 必须输出纯 Markdown 文本格式" ++ nl
 ++ "- 禁止输出 JSON 格式" ++ nl
 ++ "- 禁止输出代码块" ++ nl
 ++ "- emoji 仅在标题处少量使用（每个标题最多1个）" ++ nl
 ++ nl ++ "---" ++ nl
 ++ nl ++ "# 今日市场数据" ++ nl
 ++ nl ++ "## 日期" ++ nl
 ++ date ++ nl
 ++ nl ++ "## 主要指数" ++ nl
 ++ (if negb (String.eqb indices_text "") then indices_text
     else "暂无指数数据（接口异常）") ++ nl
 ++ nl ++ "## 市场新闻" ++ nl
 ++ (if negb (String.eqb news_text "") then news_text else "暂无相关新闻") ++ nl
 ++ nl ++ (if String.eqb indices_text ""
           then "注意：由于行情数据获取失败，请主要根据【市场新闻】进行定性分析和总结，不要编造具体的指数点位。"
           else "") ++ nl
 ++ nl ++ "---" ++ nl
 ++ nl ++ "# 输出格式模板（请严格按此格式输出）" ++ nl
 ++ nl ++ "## 📊 " ++ date ++ " 全球市场复盘" ++ nl
 ++ nl ++ "### 一、市场总结" ++ nl
 ++ "（2-3句话概括今日纳斯达克和恒生指数的整体表现）" ++ nl
 ++ nl ++ "### 二、指数点评" ++ nl
 ++ "（分析纳斯达克综合指数和恒生指数的走势特点、技术形态）" ++ nl
 ++ nl ++ "### 三、市场热点" ++ nl
 ++ "（解读当前美股和港股市场的热点板块、主题投资机会）" ++ nl
 ++ nl ++ "### 四、影响因素" ++ nl
 ++ "（分析影响市场走势的关键因素：美联储政策、经济数据、地缘政治等）" ++ nl
 ++ nl ++ "### 五、后市展望" ++ nl
 ++ "（结合当前走势和新闻，给出未来市场预判）" ++ nl
 ++ nl ++ "### 六、风险提示" ++ nl
 ++ "（需要关注的风险点）" ++ nl
 ++ nl ++ "---" ++ nl
 ++ nl ++ "请直接输出复盘报告内容，不要输出其他说明文字。" ++ nl.

(** [MarketAnalyzer._build_review_prompt]. *)
Definition _build_review_prompt (overview : MarketOverview) (news : list news_item)
    : result string :=
  indices_text <-
    foldM (fun indices_text idx =>
             let direction := direction_of (change_pct idx) in
             current_text <- format_2f (current idx) ;;
             pct_text <- format_2f (num_abs (change_pct idx)) ;;
             Return (indices_text ++ "- " ++ name idx ++ ": " ++ current_text
                       ++ " (" ++ direction ++ pct_text ++ "%)" ++ nl))
          (indices overview) "" ;;
  news_text <-
    foldM (fun news_text item =>
             ts <- title_and_snippet (snd item) ;;
             Return (news_text ++ int_str (fst item) ++ ". " ++ fst ts ++ nl
                       ++ "   " ++ snd ts ++ nl))
          (enumerate 1 (firstn 6 news)) "" ;;
  Return (prompt_text (date overview) indices_text news_text).

(** [MarketAnalyzer.generate_market_review], for the [analyzer] that the
    instance holds ([None] when there is none). *)
Definition generate_market_review (analyzer : option Analyzer) (clock : string)
    (overview : MarketOverview) (news : list news_item) : result string :=
  match analyzer with
  | None => _generate_template_review clock overview news
  | Some a =>
      available <- is_available a ;;
      if negb available then _generate_template_review clock overview news
      else
        prompt <- _build_review_prompt overview news ;;
        try_except
          (review <-
             (if _use_openai a then _call_openai_api a prompt
              else
                response <- generate_content a prompt ;;
                Return (match response with
                        | Some text =>
                            if present text
                            then option_map str_strip text
                            else None
                        | None => None
                        end)) ;;
           if present review then
             match review with
             | Some r => Return r
             | None => _generate_template_review clock overview news
             end
           else _generate_template_review clock overview news)
          (fun e => _generate_template_review clock overview news)
  end.

End Review.

(** ** The sources of the review *)

(** A response of the search service: its [results] ([None] counts as no
    results). *)
Record SearchResponse : Type := {
  results : list news_item
}.

(** The search service, in a state of type [S]:
    [search_stock_news(stock_code, stock_name, max_results, focus_keywords)]
    returns a response or [None], or raises, and leaves the service in a new
    state. *)
Class SearchService (S : Type) : Type := {
  search_stock_news :
    S -> string -> string -> Z -> list string -> result (option SearchResponse) * S
}.

(** Yahoo Finance through [yfinance] (installed, so that its import
    succeeds) and [pandas], in a state of type [yahoo]: [history] is
    [yf.Ticker(code).history(period="2d")]; on the frame it returns,
    [frame_empty] is [hist.empty], [frame_len] is [len(hist)], [iloc] is
    [hist.iloc[i]], and [row_float] is [float(row[column])]. *)
Class Yahoo (yahoo frame row float : Type) : Type := {
  history : yahoo -> string -> result frame * yahoo;
  frame_empty : frame -> bool;
  frame_len : frame -> nat;
  iloc : frame -> Z -> result row;
  row_float : row -> string -> result float
}.

Section Sources.

Context {float : Type} `{Floats float} `{Strings}.
Context {S : Type} `{SearchService S}.
Context {yahoo frame row : Type} `{Yahoo yahoo frame row float}.

Local Abbreviation MarketIndex := (MarketIndex float).
Local Abbreviation MarketOverview := (MarketOverview float).

(** The indices and the state of Yahoo after one more ticker: the body of
    the loop of [_get_main_indices], with its [try] and [except]. *)
Definition add_index (state : list MarketIndex * yahoo) (item : string * string)
    : list MarketIndex * yahoo :=
  let '(indices, y) := state in
  let '(code, name) := item in
  let '(fetched, y') := history y code in
  match
    (hist <- fetched ;;
     if frame_empty hist then Return None
     else
       today <- iloc hist (-1) ;;
       prev <- (if (1 <? frame_len hist)%nat then iloc hist (-2) else Return today) ;;
       price <- row_float today "Close" ;;
       prev_close <- row_float prev "Close" ;;
       let change := fsub price prev_close in
       let change_pct :=
         if negb (float_eq_int prev_close 0)
         then NFloat (fmul_int (fdiv change prev_close) 100) else NInt 0 in
       high <- row_float today "High" ;;
       low <- row_float today "Low" ;;
       let amplitude :=
         if negb (float_eq_int prev_close 0)
         then NFloat (fmul_int (fdiv (fsub high low) prev_close) 100) else NInt 0 in
       open <- row_float today "Open" ;;
       volume <- row_float today "Volume" ;;
       Return (Some {|
         code := code;
         name := name;
         current := NFloat price;
         change := NFloat change;
         change_pct := change_pct;
         open := NFloat open;
         high := NFloat high;
         low := NFloat low;
         prev_close := NFloat prev_close;
         volume := NFloat volume;
         amount := NFloat fzero;
         amplitude := amplitude
       |}))
  with
  | Return (Some index) => ((indices ++ [index])%list, y')
  | Return None => (indices, y')
  | Raise _ => (indices, y')
  end.

(** [MarketAnalyzer._get_main_indices]. *)
Definition _get_main_indices (y : yahoo) : list MarketIndex * yahoo :=
  let index_mapping :=
    [("^IXIC", "纳斯达克综合指数"); ("^HSI", "恒生指数")] in
  fold_left add_index index_mapping ([], y).

(** [MarketAnalyzer.get_market_overview]; [today] is what
    [datetime.now().strftime("%Y-%m-%d")] gives. *)
Definition get_market_overview (today : string) (y : yahoo) : MarketOverview * yahoo :=
  let '(indices, y') := _get_main_indices y in
  ({| date := today; indices := indices |}, y').

(** The loop of [search_market_news] under its [try]: an exception ends
    it and leaves the news gathered so far. *)
Fixpoint search_loop (service : S) (search_queries : list string)
    (all_news : list news_item) : list news_item * S :=
  match search_queries with
  | [] => (all_news, service)
  | query :: rest =>
      let '(outcome, service') :=
        search_stock_news service "market" "大盘" 3 (str_split query) in
      match outcome with
      | Return response =>
          search_loop service' rest
            (match response with
             | Some r =>
                 match results r with
                 | [] => all_news
                 | _ :: _ => (all_news ++ results r)%list
                 end
             | None => all_news
             end)
      | Raise _ => (all_news, service')
      end
  end.

(** [MarketAnalyzer.search_market_news], for the search service that the
    instance holds ([None] when there is none). *)
Definition search_market_news (search_service : option S)
    : list news_item * option S :=
  match search_service with
  | None => ([], None)
  | Some service =>
      let search_queries :=
        ["纳斯达克 NASDAQ 行情 分析"; "恒生指数 HSI 市场 走势"; "美股 港股 市场 热点"] in
      let '(all_news, service') := search_loop service search_queries [] in
      (all_news, Some service')
  end.

(** [MarketAnalyzer.run_daily_review]: the state of the instance is its
    search service and its analyzer, the world is Yahoo and the clock
    ([today] and [clock] are its readings as a date and as a time). *)
Definition run_daily_review (search_service : option S) (analyzer : option Analyzer)
    (today clock : string) (y : yahoo) : result string * option S * yahoo :=
  let '(overview, y') := get_market_overview today y in
  let '(news, search_service') := search_market_news search_service in
  let report := generate_market_review analyzer clock overview news in
  (report, search_service', y').

End Sources.

(** ** Shapes of the review's inputs *)

(** [len(s)] on a [str]: the number of its characters. *)
Fixpoint char_count (s : string) : nat :=
  match s with
  | EmptyString => O
  | String c s' => if is_continuation c then char_count s' else S (char_count s')
  end.

(** A news item that the prompt can show: an object with the attributes
    [title] and [snippet], or a dict whose ["title"] and ["snippet"] are
    strings where it has them. *)
Definition item_ok (n : news_item) : bool :=
  match n with
  | NewsObject attrs =>
      match assoc "title" attrs, assoc "snippet" attrs with
      | Some _, Some _ => true
      | _, _ => false
      end
  | NewsDict d =>
      match dict_get d "title", dict_get d "snippet" with
      | Some _, Some _ => true
      | _, _ => false
      end
  end.

Section ReviewShapes.

Context {float : Type} `{Floats float}.

(** The numbers of an index that the reports print can be formatted. *)
Definition printable (idx : MarketIndex float) : bool :=
  match format_2f (current idx), format_2f (num_abs (change_pct idx)) with
  | Return _, Return _ => true
  | _, _ => false
  end.

(** A number as [_get_main_indices] stores it: a [float], or the [int]
    zero. *)
Definition float_or_zero (n : num float) : Prop :=
  (exists f, n = NFloat f) \/ n = NInt 0.

(** The same index with another previous close. *)
Definition with_prev_close (idx : MarketIndex float) (p : num float) : MarketIndex float :=
  {| code := code idx; name := name idx; current := current idx;
     change := change idx; change_pct := change_pct idx; open := open idx;
     high := high idx; low := low idx; prev_close := p; volume := volume idx;
     amount := amount idx; amplitude := amplitude idx |}.

End ReviewShapes.

(** The search service keeps to [max_results] and to well-formed items. *)
Definition bounded_results {S : Type} `{SearchService S} : Prop :=
  forall service stock_code stock_name max_results keywords r service',
    0 <= max_results ->
    search_stock_news service stock_code stock_name max_results keywords
      = (Return (Some r), service') ->
    (Z.of_nat (length (results r)) <= max_results)%Z.

Definition well_formed_results {S : Type} `{SearchService S} : Prop :=
  forall service stock_code stock_name max_results keywords r service',
    search_stock_news service stock_code stock_name max_results keywords
      = (Return (Some r), service') ->
    forallb item_ok (results r) = true.

(** ** Instances to run the review on *)

(** Numbers with two decimals, counted in hundredths, stand for floats. *)
Definition two_digits (z : Z) : string :=
  (if z <? 10 then "0" else "") ++ int_str z.

Definition cents_format (f : Z) : string :=
  (if f <? 0 then "-" else "") ++ int_str (Z.abs f / 100) ++ "."
    ++ two_digits (Z.abs f mod 100).

Lemma cents_eq_unique (f a b : Z) :
  (f =? 100 * a) = true -> (f =? 100 * b) = true -> a = b.
Proof. intros Ha Hb. apply Z.eqb_eq in Ha, Hb. lia. Qed.

#[export] Instance cents : Builtins Z := {
  float_repr := cents_format;
  float_eq_int := fun f n => f =? 100 * n;
  float_eq_int_unique := cents_eq_unique;
  str_repr := fun s => "'" ++ s ++ "'"
}.

Lemma cents_gt_mono (f a b : Z) :
  a <= b -> (100 * b <? f) = true -> (100 * a <? f) = true.
Proof. intros Hab Hb. apply Z.ltb_lt in Hb. apply Z.ltb_lt. lia. Qed.

Lemma cents_gt_not_lt (f n : Z) : (100 * n <? f) = true -> (f <? 100 * n) = false.
Proof. intros Hgt. apply Z.ltb_lt in Hgt. apply Z.ltb_ge. lia. Qed.

Lemma cents_eq_not_gt (f n : Z) : (f =? 100 * n) = true -> (100 * n <? f) = false.
Proof. intros Heq. apply Z.eqb_eq in Heq. apply Z.ltb_ge. lia. Qed.

Lemma cents_eq_not_lt (f n : Z) : (f =? 100 * n) = true -> (f <? 100 * n) = false.
Proof. intros Heq. apply Z.eqb_eq in Heq. apply Z.ltb_ge. lia. Qed.

Lemma cents_eq_gt_below (f n m : Z) :
  (f =? 100 * n) = true -> m < n -> (100 * m <? f) = true.
Proof. intros Heq Hlt. apply Z.eqb_eq in Heq. apply Z.ltb_lt. lia. Qed.

#[export] Instance cents_floats : Floats Z := {
  fzero := 0;
  fsub := Z.sub;
  fdiv := fun a b => (100 * a) / b;
  fmul_int := Z.mul;
  fabs := Z.abs;
  fgt_int := fun f n => 100 * n <? f;
  flt_int := fun f n => f <? 100 * n;
  float_format_2f := cents_format;
  int_format_2f := fun z => Return (int_str z ++ ".00");
  fgt_int_mono := cents_gt_mono;
  fgt_not_flt := cents_gt_not_lt;
  feq_not_gt := cents_eq_not_gt;
  feq_not_lt := cents_eq_not_lt;
  feq_gt_below := cents_eq_gt_below;
  int_format_2f_zero := eq_refl
}.

(** [strip] and [split] for text whose white space is ASCII. *)
Fixpoint lstrip (s : string) : string :=
  match s with
  | EmptyString => EmptyString
  | String c s' => if is_space c then lstrip s' else s
  end.

Fixpoint reverse (s acc : string) : string :=
  match s with
  | EmptyString => acc
  | String c s' => reverse s' (String c acc)
  end.

Fixpoint words (s word : string) : list string :=
  match s with
  | EmptyString => if String.eqb word "" then [] else [word]
  | String c s' =>
      if is_space c
      then (if String.eqb word "" then words s' "" else word :: words s' "")
      else words s' (word ++ String c "")
  end.

#[export] Instance ascii_strings : Strings := {
  str_strip := fun s => reverse (lstrip (reverse (lstrip s) "")) "";
  str_split := fun s => words s ""
}.

(** A search service and a Yahoo that answer from a script: each call
    takes the next outcome; past the end of the script the search service
    returns [None] and Yahoo an empty frame.  The search service is given
    titles and snippets, of which it returns the first [max_results] as
    objects.  A row of Yahoo is [(close, high, low, open, volume)]. *)
Definition found : Type := list (option string * option string).

Definition search_result (item : option string * option string) : news_item :=
  NewsObject [("title", fst item); ("snippet", snd item)].

Definition scripted_response (max_results : Z) (outcome : result (option found))
    : result (option SearchResponse) :=
  match outcome with
  | Return (Some items) =>
      Return (Some {| results := map search_result (firstn (Z.to_nat max_results) items) |})
  | Return None => Return None
  | Raise e => Raise e
  end.

#[export] Instance scripted_search : SearchService (list (result (option found))) := {
  search_stock_news := fun script _ _ max_results _ =>
    match script with
    | [] => (Return None, [])
    | outcome :: script' => (scripted_response max_results outcome, script')
    end
}.

Definition quote : Type := Z * Z * Z * Z * Z.

Definition quote_column (r : quote) (column : string) : result Z :=
  let '(close, high, low, open, volume) := r in
  if String.eqb column "Close" then Return close
  else if String.eqb column "High" then Return high
  else if String.eqb column "Low" then Return low
  else if String.eqb column "Open" then Return open
  else if String.eqb column "Volume" then Return volume
  else Raise ValueError.

Definition quote_at (hist : list quote) (i : Z) : result quote :=
  let n := Z.of_nat (length hist) in
  let j := if i <? 0 then n + i else i in
  if (0 <=? j) && (j <? n)
  then match nth_error hist (Z.to_nat j) with
       | Some r => Return r
       | None => Raise ValueError
       end
  else Raise ValueError.

#[export] Instance scripted_yahoo
    : Yahoo (list (result (list quote))) (list quote) quote Z := {
  history := fun script _ =>
    match script with
    | [] => (Return [], [])
    | outcome :: script' => (outcome, script')
    end;
  frame_empty := fun hist => match hist with [] => true | _ => false end;
  frame_len := fun hist => length hist;
  iloc := quote_at;
  row_float := quote_column
}.

Section IndexShape.

Context {float : Type} `{Floats float}.

(** What holds of an index that [_get_main_indices] builds from a price
    and a previous close. *)
Definition index_invariant (idx : MarketIndex float) : Prop :=
  exists price prev high_ low_,
    current idx = NFloat price /\ prev_close idx = NFloat prev
    /\ high idx = NFloat high_ /\ low idx = NFloat low_
    /\ change idx = NFloat (fsub price prev)
    /\ amount idx = NFloat fzero
    /\ (float_eq_int prev 0 = true ->
        change_pct idx = NInt 0 /\ amplitude idx = NInt 0)
    /\ (float_eq_int prev 0 = false ->
        change_pct idx = NFloat (fmul_int (fdiv (fsub price prev) prev) 100)
        /\ amplitude idx = NFloat (fmul_int (fdiv (fsub high_ low_) prev) 100)).

(** The two indices of the review, in their order. *)
Definition nasdaq : string * string := ("^IXIC", "纳斯达克综合指数").
Definition hang_seng : string * string := ("^HSI", "恒生指数").

End IndexShape.

(** Market data, news and analyzers to run the review on; the numbers are
    hundredths. *)
Definition sample_index (code name : string) (change_pct : num Z) : MarketIndex Z :=
  {| code := code; name := name; current := NFloat 1500025; change := NFloat 0;
     change_pct := change_pct; open := NFloat 1500000; high := NFloat 1510000;
     low := NFloat 1490000; prev_close := NFloat 1500025; volume := NFloat 100;
     amount := NFloat 0; amplitude := NFloat 133 |}.

Definition flat_nasdaq : MarketIndex Z :=
  sample_index "^IXIC" "纳斯达克综合指数" (NFloat 0).

Definition rising_hang_seng : MarketIndex Z :=
  sample_index "^HSI" "恒生指数" (NFloat 250).

Definition flat_overview : MarketOverview Z :=
  {| date := "2026-01-05"; indices := [rising_hang_seng; flat_nasdaq] |}.

Definition null_title_object : news_item :=
  NewsObject [("title", None); ("snippet", Some "纳斯达克收高")].

Definition null_title_dict : news_item :=
  NewsDict [("title", None); ("snippet", Some "纳斯达克收高")].

Definition seven_news : list news_item :=
  repeat null_title_object 6 ++ [null_title_dict].

Definition openai_analyzer : Analyzer :=
  {| is_available := Return true;
     _use_openai := true;
     _call_openai_api := fun _ => Return (Some " 复盘 ");
     generate_content := fun _ => Raise ValueError |}.

Definition failing_gemini_analyzer : Analyzer :=
  {| is_available := Return true;
     _use_openai := false;
     _call_openai_api := fun _ => Return (Some " 复盘 ");
     generate_content := fun _ => Raise ValueError |}.

Definition five_found : found :=
  repeat (Some "标题", Some "摘要") 5.

Definition generous_search : list (result (option found)) :=
  [Return (Some five_found); Return (Some five_found); Return (Some five_found)].

Definition failing_search : list (result (option found)) :=
  [Return (Some [(Some "标题", None)]); Raise ValueError; Return (Some five_found)].

Definition one_day_yahoo : list (result (list quote)) :=
  [Return [(1500025, 1510000, 1490000, 1500000, 100)]; Raise ValueError].

(** * Properties *)

(** ** Request verification *)

Section VerifierFacts.

Context {VerifyKey : Type} `{Nacl VerifyKey}.

Lemma init_without_key (public_key : option string) :
  public_key = None \/ public_key = Some "" \/
  (exists k, public_key = Some k /\ bad_key_material k) ->
  _verify_key (__init__ public_key) = None.
Proof.
  intros [-> | [-> | (k & -> & Hbad)]]; try reflexivity.
  unfold __init__; cbn [_verify_key].
  destruct (negb (k =? "")%string); [ | reflexivity ].
  destruct Hbad as [[e He] | (raw & e & Hraw & He)].
  - now rewrite He.
  - rewrite Hraw; cbn [bind]. now rewrite He.
Qed.

(** C1: without a verification key, or with a configured string that is
    no valid key material, [verify_request] returns [True] for every
    headers mapping and body. *)
Theorem verify_request_degraded (public_key : option string)
    (headers : headers_t) (body : bytes) :
  public_key = None \/ public_key = Some "" \/
  (exists k, public_key = Some k /\ bad_key_material k) ->
  verify_request (__init__ public_key) headers body = Return true.
Proof.
  intros Hkey. unfold verify_request.
  now rewrite (init_without_key public_key Hkey).
Qed.

End VerifierFacts.

Lemma verify_request_degraded_witness :
  verify_request (__init__ (H := checksum_nacl) (Some "zz")) upper_case_headers [] = Return true
  /\ verify_request (__init__ (H := checksum_nacl) (Some "0a0b")) [] [] = Return true
  /\ verify_request (__init__ (H := checksum_nacl) None) [] [] = Return true.
Proof.
  split; [ | split ].
  - apply verify_request_degraded. right; right. exists "zz". split; [ reflexivity | ].
    left. exists ValueError. reflexivity.
  - apply verify_request_degraded. right; right. exists "0a0b". split; [ reflexivity | ].
    right. exists [x0a; x0b], ValueError. split; reflexivity.
  - apply verify_request_degraded. left. reflexivity.
Defined.

Section VerifierWithKey.

Context {VerifyKey : Type} `{Nacl VerifyKey}.

Variable self : DiscordPlatform VerifyKey.
Variable vk : VerifyKey.
Hypothesis key_configured : _verify_key self = Some vk.

Lemma verify_request_missing (headers : headers_t) (body : bytes) :
  present (signature_header headers) = false
  \/ present (timestamp_header headers) = false ->
  verify_request self headers body = Return false.
Proof.
  intros Hmiss. unfold verify_request. rewrite key_configured.
  destruct Hmiss as [-> | ->]; cbn; [ reflexivity | ].
  now rewrite orb_true_r.
Qed.

Lemma header_absent_not_present (lo canon : string) (headers : headers_t) :
  header_absent lo canon headers ->
  present (or_else (assoc lo headers) (assoc canon headers)) = false.
Proof.
  intros [Hlo Hcanon]. unfold or_else. now rewrite Hlo, Hcanon.
Qed.

(** With both headers there, the result is that of the guarded block. *)
Lemma verify_request_checked (headers : headers_t) (body : bytes) (sg ts : string) :
  signature_header headers = Some sg ->
  timestamp_header headers = Some ts ->
  verify_request self headers body =
    if negb (present (Some sg)) || negb (present (Some ts)) then Return false
    else
      match fromhex sg with
      | Return raw =>
          match VerifyKey_verify vk (encode ts ++ body)%list raw with
          | Return _ => Return true
          | Raise _ => Return false
          end
      | Raise _ => Return false
      end.
Proof.
  intros Hsg Hts. unfold verify_request. rewrite key_configured, Hsg, Hts.
  destruct (negb (present (Some sg)) || negb (present (Some ts))); [ reflexivity | ].
  cbn [encode_opt fromhex_opt bind try_except].
  destruct (fromhex sg) as [raw | e]; cbn [bind try_except].
  - destruct (VerifyKey_verify vk (encode ts ++ body)%list raw) as [m | e];
      cbn [bind try_except]; [ reflexivity | now destruct e ].
  - now destruct e.
Qed.

Lemma verify_request_returns (headers : headers_t) (body : bytes) :
  exists b, verify_request self headers body = Return b.
Proof.
  destruct (present (signature_header headers)) eqn:Hs;
    [ | exists false; apply verify_request_missing; now left ].
  destruct (present (timestamp_header headers)) eqn:Ht;
    [ | exists false; apply verify_request_missing; now right ].
  destruct (signature_header headers) as [sg | ] eqn:Hsg; [ | discriminate ].
  destruct (timestamp_header headers) as [ts | ] eqn:Hts; [ | discriminate ].
  rewrite (verify_request_checked headers body sg ts Hsg Hts).
  destruct (negb (present (Some sg)) || negb (present (Some ts))); [ now exists false | ].
  destruct (fromhex sg) as [raw | e]; [ | now exists false ].
  destruct (VerifyKey_verify vk (encode ts ++ body)%list raw); eauto.
Qed.

(** C3: with a key configured, [verify_request] returns and does not
    raise; it returns [False] when the signature or the time stamp header
    is absent, when the signature is not hexadecimal and when PyNaCl rejects
    the signature; it returns [True] only when PyNaCl accepts the decoded
    signature for the time stamp's bytes followed by the body. *)
Theorem verify_request_with_key (headers : headers_t) (body : bytes) :
  (exists b, verify_request self headers body = Return b)
  /\ (header_absent "x-signature-ed25519" "X-Signature-Ed25519" headers
      \/ header_absent "x-signature-timestamp" "X-Signature-Timestamp" headers ->
      verify_request self headers body = Return false)
  /\ (forall sg e,
        signature_header headers = Some sg -> fromhex sg = Raise e ->
        verify_request self headers body = Return false)
  /\ (forall sg ts raw e,
        signature_header headers = Some sg -> timestamp_header headers = Some ts ->
        fromhex sg = Return raw ->
        VerifyKey_verify vk (encode ts ++ body)%list raw = Raise e ->
        verify_request self headers body = Return false)
  /\ (verify_request self headers body = Return true ->
      exists sg ts raw message,
        signature_header headers = Some sg /\ timestamp_header headers = Some ts
        /\ fromhex sg = Return raw
        /\ VerifyKey_verify vk (encode ts ++ body)%list raw = Return message).
Proof.
  split; [ apply verify_request_returns | ].
  split.
  { intros [Habs | Habs]; apply verify_request_missing; [ left | right ];
      now apply header_absent_not_present. }
  split.
  { intros sg e Hsg Hhex.
    destruct (present (timestamp_header headers)) eqn:Ht;
      [ | apply verify_request_missing; now right ].
    destruct (timestamp_header headers) as [ts | ] eqn:Hts; [ | discriminate ].
    rewrite (verify_request_checked headers body sg ts Hsg Hts), Hhex.
    now destruct (negb (present (Some sg)) || negb (present (Some ts))). }
  split.
  { intros sg ts raw e Hsg Hts Hhex Hver.
    rewrite (verify_request_checked headers body sg ts Hsg Hts), Hhex, Hver.
    now destruct (negb (present (Some sg)) || negb (present (Some ts))). }
  intros Htrue.
  destruct (present (signature_header headers)) eqn:Hs.
  2:{ rewrite verify_request_missing in Htrue by now left. discriminate. }
  destruct (present (timestamp_header headers)) eqn:Ht.
  2:{ rewrite verify_request_missing in Htrue by now right. discriminate. }
  destruct (signature_header headers) as [sg | ] eqn:Hsg; [ | discriminate ].
  destruct (timestamp_header headers) as [ts | ] eqn:Hts; [ | discriminate ].
  rewrite (verify_request_checked headers body sg ts Hsg Hts) in Htrue.
  destruct (negb (present (Some sg)) || negb (present (Some ts))); [ discriminate | ].
  destruct (fromhex sg) as [raw | e] eqn:Hhex; [ | discriminate ].
  destruct (VerifyKey_verify vk (encode ts ++ body)%list raw) as [m | e] eqn:Hver;
    [ | discriminate ].
  exists sg, ts, raw, m. repeat split; assumption.
Qed.

End VerifierWithKey.

Lemma verify_request_with_key_witness :
  verify_request (__init__ (H := checksum_nacl) (Some sample_key))
    [("x-signature-timestamp", "1")] [] = Return false
  /\ verify_request (__init__ (H := checksum_nacl) (Some sample_key))
       [("x-signature-ed25519", "xyz"); ("x-signature-timestamp", "1")] [] = Return false
  /\ verify_request (__init__ (H := checksum_nacl) (Some sample_key))
       [("x-signature-ed25519", "0a0b"); ("x-signature-timestamp", "1")] [] = Return false
  /\ exists b,
       verify_request (__init__ (H := checksum_nacl) (Some sample_key))
         canonical_headers [] = Return b.
Proof.
  split; [ | split; [ | split ] ].
  - destruct (verify_request_with_key (__init__ (H := checksum_nacl) (Some sample_key))
                _ eq_refl [("x-signature-timestamp", "1")] []) as (_ & Habs & _).
    apply Habs. left. split; reflexivity.
  - destruct (verify_request_with_key (__init__ (H := checksum_nacl) (Some sample_key))
                _ eq_refl [("x-signature-ed25519", "xyz"); ("x-signature-timestamp", "1")] [])
      as (_ & _ & Hhex & _).
    apply (Hhex "xyz" ValueError); reflexivity.
  - destruct (verify_request_with_key (__init__ (H := checksum_nacl) (Some sample_key))
                _ eq_refl [("x-signature-ed25519", "0a0b"); ("x-signature-timestamp", "1")] [])
      as (_ & _ & _ & Hver & _).
    apply (Hver "0a0b" "1" [x0a; x0b] ValueError); reflexivity.
  - destruct (verify_request_with_key (__init__ (H := checksum_nacl) (Some sample_key))
                _ eq_refl canonical_headers []) as (Hret & _).
    exact Hret.
Defined.

(** *** Spelling of the header names *)







Section HeaderSpelling.

Context {VerifyKey : Type} `{Nacl VerifyKey}.


End HeaderSpelling.



(** ** Parsing *)

Section ParserFacts.

Context {float : Type} `{Builtins float}.

Local Abbreviation value := (value float).
Local Abbreviation pydict := (pydict float).

Lemma eq_int_unique (v : value) (a b : Z) :
  eq_int v a = true -> eq_int v b = true -> a = b.
Proof.
  destruct v; cbn; try discriminate.
  - intros Ha Hb. apply Z.eqb_eq in Ha, Hb. congruence.
  - intros Ha Hb. apply Z.eqb_eq in Ha, Hb. congruence.
  - apply float_eq_int_unique.
Qed.

Lemma is_command_not_ping (data : pydict) :
  is_command data = true -> eq_int (get data "type") 1 = false.
Proof.
  unfold is_command. intros H2.
  destruct (eq_int (get data "type") 1) eqn:H1; [ | reflexivity ].
  discriminate (eq_int_unique _ _ _ H1 H2).
Qed.

(** The loop over the options. *)
Lemma mapM_option_arg (l : list value) :
  forallb is_dict l = true ->
  mapM option_arg l = Return (map (fun o => str (option_value o)) l).
Proof.
  induction l as [ | o l IH]; cbn [forallb mapM map]; [ reflexivity | ].
  intros Hall. apply andb_prop in Hall. destruct Hall as [Ho Hl].
  rewrite (IH Hl). destruct o; try discriminate. reflexivity.
Qed.

Lemma mapM_option_arg_inv (l : list value) (args : list string) :
  mapM option_arg l = Return args ->
  forallb is_dict l = true /\ args = map (fun o => str (option_value o)) l.
Proof.
  revert args. induction l as [ | o l IH]; cbn [forallb mapM map]; intros args Hargs.
  - split; [ reflexivity | congruence ].
  - destruct o; try discriminate. cbn in Hargs.
    destruct (mapM option_arg l) as [args' | e]; [ | discriminate ].
    destruct (IH args' eq_refl) as [Hall ->]. cbn in Hargs.
    split; [ exact Hall | ]. cbn. congruence.
Qed.

Lemma content_block_falsy (command_name options : value) :
  truthy options = false ->
  content_block command_name options = Return ("/" ++ str command_name).
Proof. unfold content_block. now intros ->. Qed.

Lemma content_block_list (command_name : value) (l : list value) :
  truthy (PyList l) = true -> forallb is_dict l = true ->
  content_block command_name (PyList l)
    = Return ("/" ++ str command_name ++ " "
                  ++ String.concat " " (map (fun o => str (option_value o)) l)).
Proof.
  unfold content_block. intros Ht Hall. rewrite Ht. cbn [iter bind].
  rewrite (mapM_option_arg l Hall). cbn [bind].
  destruct l; [ discriminate Ht | reflexivity ].
Qed.

Lemma content_block_inv (command_name options : value) (c : string) :
  content_block command_name options = Return c -> options_ok options = true.
Proof.
  unfold content_block, options_ok.
  destruct (truthy options) eqn:Ht; [ | reflexivity ]. cbn [negb orb].
  destruct options as [ | b | z | f | s | l | d]; cbn [iter bind]; try discriminate.
  - destruct s as [ | a s]; [ discriminate Ht | discriminate ].
  - intros Hc. destruct (mapM option_arg l) as [args | e] eqn:Hargs; [ | discriminate ].
    now destruct (mapM_option_arg_inv l args Hargs).
  - destruct d as [ | [k v] d]; [ discriminate Ht | discriminate ].
Qed.

(** [parse_message] on a command invocation, with the content block named. *)
Lemma parse_message_command (data : pydict) :
  is_command data = true ->
  parse_message data =
    (let command_data := get_default data "data" (PyDict []) in
     command_name <- attr_get command_data "name" (PyStr "") ;;
     options <- attr_get command_data "options" (PyList []) ;;
     content <- content_block command_name options ;;
     user <- attr_get (get_default data "member" (PyDict [])) "user"
               (get_default data "user" (PyDict [])) ;;
     user_id <- attr_get user "id" (PyStr "") ;;
     user_name <- attr_get user "username" (PyStr "unknown") ;;
     let channel_id := get_default data "channel_id" (PyStr "") in
     let guild_id := get_default data "guild_id" (PyStr "") in
     Return (Some {|
       platform := "discord";
       message_id := get_default data "id" (PyStr "");
       user_id := user_id;
       user_name := user_name;
       chat_id := py_or channel_id guild_id;
       chat_type := if truthy guild_id then GROUP else PRIVATE;
       content := content;
       raw_content := content;
       mentioned := false;
       mentions := [];
       raw_data := data
     |})).
Proof.
  intros Hcmd. unfold parse_message.
  rewrite (is_command_not_ping data Hcmd).
  unfold is_command in Hcmd. rewrite Hcmd. reflexivity.
Qed.

Lemma parse_message_not_command (data : pydict) :
  is_command data = false -> parse_message data = Return None.
Proof.
  unfold is_command, parse_message. intros ->.
  now destruct (eq_int (get data "type") 1).
Qed.

End ParserFacts.

Section CommandFacts.

Context {float : Type} `{Builtins float}.

Local Abbreviation value := (value float).
Local Abbreviation pydict := (pydict float).

Lemma get_default_some (d : pydict) (k : string) (default v : value) :
  assoc k d = Some v -> get_default d k default = v.
Proof. unfold get_default. now intros ->. Qed.

Lemma get_default_none (d : pydict) (k : string) (default : value) :
  assoc k d = None -> get_default d k default = default.
Proof. unfold get_default. now intros ->. Qed.

Lemma content_block_returns (command_name options : value) :
  options_ok options = true ->
  exists c, content_block command_name options = Return c.
Proof.
  unfold options_ok. intros Hok.
  destruct (truthy options) eqn:Ht.
  - cbn [negb orb] in Hok. destruct options; try discriminate.
    eexists. now apply content_block_list.
  - eexists. now apply content_block_falsy.
Qed.

(** A command invocation whose command data and actor record are
    mappings yields a message, with these fields. *)
Lemma parse_message_ok (data command_data user : pydict) (c : string) :
  is_command data = true ->
  get_default data "data" (PyDict []) = PyDict command_data ->
  content_block (get_default command_data "name" (PyStr ""))
                (get_default command_data "options" (PyList [])) = Return c ->
  attr_get (get_default data "member" (PyDict [])) "user"
    (get_default data "user" (PyDict [])) = Return (PyDict user) ->
  parse_message data =
    Return (Some {|
      platform := "discord";
      message_id := get_default data "id" (PyStr "");
      user_id := get_default user "id" (PyStr "");
      user_name := get_default user "username" (PyStr "unknown");
      chat_id := py_or (get_default data "channel_id" (PyStr ""))
                       (get_default data "guild_id" (PyStr ""));
      chat_type := if truthy (get_default data "guild_id" (PyStr ""))
                   then GROUP else PRIVATE;
      content := c;
      raw_content := c;
      mentioned := false;
      mentions := [];
      raw_data := data
    |}).
Proof.
  intros Hcmd Hdata Hc Huser.
  rewrite (parse_message_command data Hcmd). cbv zeta.
  rewrite Hdata. cbn [attr_get bind]. rewrite Hc. cbn [bind].
  rewrite Huser. reflexivity.
Qed.

(** The resolved actor record of a payload with well-shaped actor part. *)
Lemma actor_ok_user (data : pydict) :
  actor_ok data = true ->
  exists user,
    attr_get (get_default data "member" (PyDict [])) "user"
      (get_default data "user" (PyDict [])) = Return (PyDict user).
Proof.
  unfold actor_ok.
  destruct (get_default data "member" (PyDict [])) as [ | | | | | | member];
    try discriminate.
  cbn [attr_get].
  destruct (get_default member "user" (get_default data "user" (PyDict [])));
    try discriminate.
  eauto.
Qed.

Lemma command_ok_data (data : pydict) :
  command_ok data = true ->
  exists command_data,
    get_default data "data" (PyDict []) = PyDict command_data
    /\ options_ok (get_default command_data "options" (PyList [])) = true.
Proof.
  unfold command_ok.
  destruct (get_default data "data" (PyDict [])); try discriminate. eauto.
Qed.

(** Well-shaped command invocations are parsed: [parse_message] returns a
    message, whose fields are those of [parse_message_ok]. *)
Lemma parse_message_returns (data : pydict) :
  is_command data = true -> command_ok data = true -> actor_ok data = true ->
  exists command_data user c,
    get_default data "data" (PyDict []) = PyDict command_data
    /\ content_block (get_default command_data "name" (PyStr ""))
         (get_default command_data "options" (PyList [])) = Return c
    /\ attr_get (get_default data "member" (PyDict [])) "user"
         (get_default data "user" (PyDict [])) = Return (PyDict user)
    /\ exists m, parse_message data = Return (Some m)
         /\ message_id m = get_default data "id" (PyStr "")
         /\ user_id m = get_default user "id" (PyStr "")
         /\ user_name m = get_default user "username" (PyStr "unknown")
         /\ chat_id m = py_or (get_default data "channel_id" (PyStr ""))
                              (get_default data "guild_id" (PyStr ""))
         /\ chat_type m = (if truthy (get_default data "guild_id" (PyStr ""))
                           then GROUP else PRIVATE)
         /\ content m = c.
Proof.
  intros Hcmd Hcommand Hactor.
  destruct (command_ok_data data Hcommand) as (command_data & Hdata & Hopts).
  destruct (actor_ok_user data Hactor) as (user & Huser).
  destruct (content_block_returns (get_default command_data "name" (PyStr "")) _ Hopts)
    as (c & Hc).
  exists command_data, user, c. repeat (split; [ assumption | ]).
  eexists. split; [ exact (parse_message_ok data command_data user c Hcmd Hdata Hc Huser) | ].
  cbn. repeat split.
Qed.

(** Conversely, a payload that yields a message is a well-shaped command
    invocation: on the others [parse_message] returns [None] or raises. *)
Lemma parse_message_some_inv (data : pydict) (m : BotMessage) :
  parse_message data = Return (Some m) ->
  is_command data = true /\ command_ok data = true /\ actor_ok data = true.
Proof.
  intros Hm.
  destruct (is_command data) eqn:Hcmd;
    [ | rewrite (parse_message_not_command data Hcmd) in Hm; discriminate ].
  rewrite (parse_message_command data Hcmd) in Hm. cbv zeta in Hm.
  unfold command_ok, actor_ok.
  destruct (get_default data "data" (PyDict [])) as [ | | | | | | command_data];
    try discriminate.
  cbn [attr_get bind] in Hm.
  destruct (content_block _ _) as [c | e] eqn:Hc; [ | discriminate ].
  cbn [bind] in Hm.
  destruct (get_default data "member" (PyDict [])) as [ | | | | | | member];
    try discriminate.
  cbn [attr_get bind] in Hm.
  destruct (get_default member "user" (get_default data "user" (PyDict [])));
    try discriminate.
  repeat split. exact (content_block_inv _ _ _ Hc).
Qed.

End CommandFacts.

Section ParserClaims.

Context {float : Type} `{Builtins float}.

Local Abbreviation value := (value float).
Local Abbreviation pydict := (pydict float).

(** C4: [parse_message] returns [None] for every payload whose type is
    equal to 1 and for every payload whose type is not equal to 2 (a
    payload without a type among them); only a payload whose type is
    equal to 2 can yield a message.  Equality is Python's [==]. *)
Theorem parse_message_only_commands :
  (forall data : pydict,
      eq_int (get data "type") 1 = true -> parse_message data = Return None)
  /\ (forall data : pydict,
        eq_int (get data "type") 2 = false -> parse_message data = Return None)
  /\ (forall (data : pydict) (m : BotMessage),
        parse_message data = Return (Some m) -> eq_int (get data "type") 2 = true).
Proof.
  split; [ | split ].
  - intros data H1. unfold parse_message. now rewrite H1.
  - intros data H2. now apply parse_message_not_command.
  - intros data m Hm. now destruct (parse_message_some_inv data m Hm).
Qed.

(** C5: for a command invocation with command name [name], the content of
    the parsed message is ["/" ++ name] when there are no options (the list
    is absent or empty), and ["/" ++ name ++ " "] followed by the string
    forms of the options' values, in their order and joined by spaces,
    when there is at least one option. *)
Theorem parse_message_content (data command_data : pydict) (name : string) :
  is_command data = true -> command_ok data = true -> actor_ok data = true ->
  assoc "data" data = Some (PyDict command_data) ->
  assoc "name" command_data = Some (PyStr name) ->
  exists m, parse_message data = Return (Some m)
    /\ raw_content m = content m
    /\ (assoc "options" command_data = None
        \/ assoc "options" command_data = Some (PyList []) ->
        content m = "/" ++ name)
    /\ (forall o os, assoc "options" command_data = Some (PyList (o :: os)) ->
        content m = "/" ++ name ++ " "
                      ++ String.concat " " (map (fun o => str (option_value o)) (o :: os))).
Proof.
  intros Hcmd Hcommand Hactor Hdata Hname.
  destruct (command_ok_data data Hcommand) as (cd & Hcd & Hopts).
  rewrite (get_default_some data "data" _ _ Hdata) in Hcd.
  injection Hcd as <-.
  destruct (actor_ok_user data Hactor) as (user & Huser).
  destruct (content_block_returns (get_default command_data "name" (PyStr "")) _ Hopts)
    as (c & Hc).
  rewrite (get_default_some command_data "name" _ _ Hname) in Hc.
  eexists. split.
  { apply (parse_message_ok data command_data user c Hcmd); try assumption.
    - now apply get_default_some.
    - now rewrite (get_default_some command_data "name" _ _ Hname). }
  cbn [content raw_content]. split; [ reflexivity | ]. split.
  - intros Hnone.
    rewrite content_block_falsy in Hc; [ cbn [str] in Hc; congruence | ].
    unfold get_default. now destruct Hnone as [-> | ->].
  - intros o os Hsome.
    rewrite (get_default_some command_data "options" _ _ Hsome) in Hc, Hopts.
    rewrite content_block_list in Hc; [ cbn [str] in Hc; congruence | reflexivity | ].
    exact Hopts.
Qed.

Lemma carries_truthy (data : pydict) (key : string) :
  carries data key <-> truthy (get_default data key (PyStr "")) = true.
Proof.
  unfold carries, get_default. split.
  - now intros (v & -> & Hv).
  - destruct (assoc key data) as [v | ]; [ eauto | discriminate ].
Qed.

(** C6, amended: for a command invocation, [chat_id] is the channel id
    when the payload carries a non-empty one, else the guild id when there
    is one, else the empty string; [chat_type] is [GROUP] exactly when the
    payload carries a non-empty guild id and [PRIVATE] otherwise; hence
    [chat_id] is non-empty whenever the payload carries a non-empty channel
    or guild id. *)
Theorem parse_message_scope (data : pydict) :
  is_command data = true -> command_ok data = true -> actor_ok data = true ->
  exists m, parse_message data = Return (Some m)
    /\ (forall c, assoc "channel_id" data = Some c -> truthy c = true -> chat_id m = c)
    /\ (~ carries data "channel_id" ->
        forall g, assoc "guild_id" data = Some g -> chat_id m = g)
    /\ (~ carries data "channel_id" -> assoc "guild_id" data = None ->
        chat_id m = PyStr "")
    /\ (chat_type m = GROUP <-> carries data "guild_id")
    /\ (chat_type m = PRIVATE <-> ~ carries data "guild_id")
    /\ (carries data "channel_id" \/ carries data "guild_id" ->
        truthy (chat_id m) = true).
Proof.
  intros Hcmd Hcommand Hactor.
  destruct (parse_message_returns data Hcmd Hcommand Hactor)
    as (cd & user & c & _ & _ & _ & m & Hm & _ & _ & _ & Hchat & Htype & _).
  exists m. split; [ exact Hm | ].
  rewrite Hchat, Htype. rewrite !carries_truthy. unfold py_or.
  split; [ | split; [ | split; [ | split; [ | split ] ] ] ].
  - intros ch Hch Ht. rewrite (get_default_some data "channel_id" _ _ Hch). now rewrite Ht.
  - intros Hno g Hg. apply not_true_is_false in Hno. rewrite Hno.
    now apply get_default_some.
  - intros Hno Hg. apply not_true_is_false in Hno. rewrite Hno.
    now apply get_default_none.
  - destruct (truthy (get_default data "guild_id" (PyStr ""))); split; congruence.
  - destruct (truthy (get_default data "guild_id" (PyStr ""))); split; congruence.
  - destruct (truthy (get_default data "channel_id" (PyStr ""))) eqn:Hch; [ easy | ].
    intros [Hbad | Hg]; [ discriminate | exact Hg ].
Qed.

Lemma actor_ok_intro (data user : pydict) :
  attr_get (get_default data "member" (PyDict [])) "user"
    (get_default data "user" (PyDict [])) = Return (PyDict user) ->
  actor_ok data = true.
Proof.
  unfold actor_ok.
  destruct (get_default data "member" (PyDict [])); try discriminate.
  cbn [attr_get]. intros Huser. injection Huser as ->. reflexivity.
Qed.

Lemma parse_message_actor_record (data user : pydict) :
  is_command data = true -> command_ok data = true ->
  attr_get (get_default data "member" (PyDict [])) "user"
    (get_default data "user" (PyDict [])) = Return (PyDict user) ->
  exists m, parse_message data = Return (Some m) /\ actor_fields user m.
Proof.
  intros Hcmd Hcommand Huser.
  destruct (parse_message_returns data Hcmd Hcommand (actor_ok_intro data user Huser))
    as (cd & user' & c & _ & _ & Huser' & m & Hm & _ & Hid & Hname & _).
  rewrite Huser in Huser'. injection Huser' as <-.
  exists m. split; [ exact Hm | ].
  unfold actor_fields. rewrite Hid, Hname. unfold get_default.
  repeat split; try (now intros ->); intros v Hv; now rewrite Hv.
Qed.

Lemma no_member_user_fallback (data : pydict) :
  no_member_user data ->
  attr_get (get_default data "member" (PyDict [])) "user"
    (get_default data "user" (PyDict [])) = Return (get_default data "user" (PyDict [])).
Proof.
  intros [Hnone | (member & Hmember & Huser)].
  - now rewrite (get_default_none data "member" _ Hnone).
  - rewrite (get_default_some data "member" _ _ Hmember). cbn [attr_get].
    now rewrite (get_default_none member "user" _ Huser).
Qed.

(** C7: for a command invocation, the actor is the [member.user] record
    when there is one, else the top-level [user] record; [user_id] and
    [user_name] are what the record holds under ["id"] and ["username"],
    the empty string and ["unknown"] when it lacks them; with no actor
    record at all the message is still built, with these defaults. *)
Theorem parse_message_actor (data : pydict) :
  is_command data = true -> command_ok data = true ->
  (forall member user,
      assoc "member" data = Some (PyDict member) ->
      assoc "user" member = Some (PyDict user) ->
      exists m, parse_message data = Return (Some m) /\ actor_fields user m)
  /\ (forall user,
        no_member_user data -> assoc "user" data = Some (PyDict user) ->
        exists m, parse_message data = Return (Some m) /\ actor_fields user m)
  /\ (no_member_user data -> assoc "user" data = None ->
      exists m, parse_message data = Return (Some m)
                /\ user_id m = PyStr "" /\ user_name m = PyStr "unknown").
Proof.
  intros Hcmd Hcommand. split; [ | split ].
  - intros member user Hmember Huser.
    apply parse_message_actor_record; try assumption.
    rewrite (get_default_some data "member" _ _ Hmember). cbn [attr_get].
    now rewrite (get_default_some member "user" _ _ Huser).
  - intros user Hno Huser.
    apply parse_message_actor_record; try assumption.
    rewrite (no_member_user_fallback data Hno).
    now rewrite (get_default_some data "user" _ _ Huser).
  - intros Hno Huser.
    destruct (parse_message_actor_record data [] Hcmd Hcommand) as (m & Hm & Hf).
    { rewrite (no_member_user_fallback data Hno).
      now rewrite (get_default_none data "user" _ Huser). }
    exists m. split; [ exact Hm | ].
    destruct Hf as (_ & Hid & _ & Hname). split; [ now apply Hid | now apply Hname ].
Qed.

(** The degenerate command invocation, without ["data"], ["member"],
    ["user"], ["channel_id"], ["guild_id"] and ["id"]: all the defaults
    apply. *)
Lemma parse_message_bare (data : pydict) :
  is_command data = true ->
  assoc "data" data = None -> assoc "member" data = None ->
  assoc "user" data = None -> assoc "channel_id" data = None ->
  assoc "guild_id" data = None -> assoc "id" data = None ->
  parse_message data =
    Return (Some {|
      platform := "discord";
      message_id := PyStr "";
      user_id := PyStr "";
      user_name := PyStr "unknown";
      chat_id := PyStr "";
      chat_type := PRIVATE;
      content := "/";
      raw_content := "/";
      mentioned := false;
      mentions := [];
      raw_data := data
    |}).
Proof.
  intros Hcmd Hdata Hmember Huser Hchannel Hguild Hid.
  rewrite (parse_message_command data Hcmd).
  unfold get_default. rewrite Hdata, Hmember, Huser, Hchannel, Hguild, Hid.
  reflexivity.
Qed.

(** C10, amended: a payload with type 2 yields a message whenever its
    ["data"], its ["member"] and its actor record are mappings where they
    are present and its options, where not empty, are a list of mappings;
    this is so in particular when ["data"], ["member"], ["user"],
    ["channel_id"], ["guild_id"] and ["id"] are all absent, and then the
    content of the message is ["/"], its message, user and chat ids are
    empty strings, its user name is ["unknown"], its chat type is
    [PRIVATE], it is not mentioned and has no mentions. *)
Theorem parse_message_well_shaped (data : pydict) :
  is_command data = true ->
  (command_ok data = true -> actor_ok data = true ->
   exists m, parse_message data = Return (Some m))
  /\ (assoc "data" data = None -> assoc "member" data = None ->
      assoc "user" data = None -> assoc "channel_id" data = None ->
      assoc "guild_id" data = None -> assoc "id" data = None ->
      command_ok data = true /\ actor_ok data = true
      /\ parse_message data =
           Return (Some {|
             platform := "discord";
             message_id := PyStr "";
             user_id := PyStr "";
             user_name := PyStr "unknown";
             chat_id := PyStr "";
             chat_type := PRIVATE;
             content := "/";
             raw_content := "/";
             mentioned := false;
             mentions := [];
             raw_data := data
           |})).
Proof.
  intros Hcmd. split.
  - intros Hcommand Hactor.
    destruct (parse_message_returns data Hcmd Hcommand Hactor)
      as (_ & _ & _ & _ & _ & _ & m & Hm & _).
    now exists m.
  - intros Hdata Hmember Huser Hchannel Hguild Hid.
    split; [ | split ].
    + unfold command_ok, get_default. now rewrite Hdata.
    + unfold actor_ok, get_default. now rewrite Hmember, Huser.
    + now apply parse_message_bare.
Qed.

(** ** Formatting and the handshake *)

(** C8: [format_response] returns, for every response and message, a
    success envelope with payload [{type: 4, data: {content: text, flags:
    0}}], where [text] is [response.text] when the response has that
    attribute and [str(response)] otherwise; it neither raises nor returns
    a failure envelope. *)
Theorem format_response_success (response : pyobject) (message : BotMessage) :
  exists text,
    format_response response message
      = Return (Success (PyDict [("type", PyInt 4);
                                 ("data", PyDict [("content", text); ("flags", PyInt 0)])]))
    /\ (forall t, getattr response "text" = Return t ->
                  hasattr response "text" = true /\ text = t)
    /\ (hasattr response "text" = false -> text = PyStr (object_str response))
    /\ (forall reason, format_response response message <> Return (Failure reason))
    /\ (forall e, format_response response message <> Raise e).
Proof.
  unfold format_response, hasattr, getattr, success.
  destruct response as [v | attrs as_str].
  - exists (PyStr (str v)). cbn. repeat split; discriminate.
  - destruct (assoc "text" attrs) as [t | ].
    + exists t. cbn. repeat split; congruence.
    + exists (PyStr as_str). cbn. repeat split; discriminate.
Qed.

(** C9: [handle_challenge] returns a success envelope with payload
    [{type: 1}] for every payload whose type is equal to 1, and [None] for
    every other payload.  Equality is Python's [==]. *)
Theorem handle_challenge_ping :
  (forall data : pydict,
      eq_int (get data "type") 1 = true ->
      handle_challenge data = Return (Some (Success (PyDict [("type", PyInt 1)]))))
  /\ (forall data : pydict,
        eq_int (get data "type") 1 = false -> handle_challenge data = Return None).
Proof.
  split; intros data H1; unfold handle_challenge; now rewrite H1.
Qed.

End ParserClaims.

(** ** The properties on concrete payloads *)

Lemma parse_message_only_commands_witness :
  parse_message (float := Empty_set) [("type", PyInt 1)] = Return None
  /\ parse_message (float := Empty_set) [("type", PyInt 3); ("data", PyNone)] = Return None
  /\ eq_int (get price_command "type") 2 = true.
Proof.
  destruct (parse_message_only_commands (float := Empty_set)) as (Hping & Hother & Honly).
  split; [ | split ].
  - apply Hping. reflexivity.
  - apply Hother. reflexivity.
  - eapply Honly. reflexivity.
Defined.

Lemma parse_message_content_witness :
  (exists m, parse_message price_command = Return (Some m)
             /\ content m = "/price AAPL")
  /\ (exists m, parse_message ping_command = Return (Some m) /\ content m = "/ping").
Proof.
  split.
  - destruct (parse_message_content price_command
                [("name", PyStr "price");
                 ("options", PyList [PyDict [("value", PyStr "AAPL")]])]
                "price" eq_refl eq_refl eq_refl eq_refl eq_refl)
      as (m & Hm & _ & _ & Hsome).
    exists m. split; [ exact Hm | ].
    exact (Hsome (PyDict [("value", PyStr "AAPL")]) [] eq_refl).
  - destruct (parse_message_content ping_command [("name", PyStr "ping")]
                "ping" eq_refl eq_refl eq_refl eq_refl eq_refl)
      as (m & Hm & _ & Hnone & _).
    exists m. split; [ exact Hm | ].
    exact (Hnone (or_introl eq_refl)).
Defined.

Lemma parse_message_scope_witness :
  exists m, parse_message price_command = Return (Some m)
            /\ chat_id m = PyStr "c1" /\ chat_type m = GROUP.
Proof.
  destruct (parse_message_scope price_command eq_refl eq_refl eq_refl)
    as (m & Hm & Hchannel & _ & _ & Hgroup & _).
  exists m. split; [ exact Hm | ]. split.
  - apply Hchannel; reflexivity.
  - apply Hgroup. exists (PyStr "g1"). split; reflexivity.
Defined.

(** C6, as stated, fails on empty ids: an empty channel id is passed over
    for the guild id, and an empty guild id does not make a group chat. *)
Lemma parse_message_empty_scope_ids :
  ~ chat_id_by_presence empty_channel_command
  /\ ~ chat_type_by_presence empty_guild_command.
Proof.
  split; intros Hclaim.
  - specialize (Hclaim _ eq_refl). discriminate Hclaim.
  - specialize (Hclaim _ eq_refl). destruct Hclaim as [_ Hgroup].
    cbn in Hgroup. discriminate Hgroup. discriminate.
Qed.

Lemma parse_message_actor_witness :
  (exists m, parse_message price_command = Return (Some m)
             /\ user_id m = PyStr "42" /\ user_name m = PyStr "ann")
  /\ (exists m, parse_message ping_command = Return (Some m)
                /\ user_id m = PyStr "7" /\ user_name m = PyStr "unknown")
  /\ (exists m, parse_message bare_command = Return (Some m)
                /\ user_id m = PyStr "" /\ user_name m = PyStr "unknown").
Proof.
  split; [ | split ].
  - destruct (parse_message_actor price_command eq_refl eq_refl) as (Hmember & _).
    destruct (Hmember [("user", PyDict [("id", PyStr "42"); ("username", PyStr "ann")])]
                [("id", PyStr "42"); ("username", PyStr "ann")] eq_refl eq_refl)
      as (m & Hm & Hid & _ & Hname & _).
    exists m. split; [ exact Hm | ]. split; [ now apply Hid | now apply Hname ].
  - destruct (parse_message_actor ping_command eq_refl eq_refl) as (_ & Huser & _).
    destruct (Huser [("id", PyStr "7")] (or_introl eq_refl) eq_refl)
      as (m & Hm & Hid & _ & _ & Hname).
    exists m. split; [ exact Hm | ]. split; [ now apply Hid | now apply Hname ].
  - destruct (parse_message_actor bare_command eq_refl eq_refl) as (_ & _ & Hnone).
    exact (Hnone (or_introl eq_refl) eq_refl).
Defined.

Lemma parse_message_well_shaped_witness :
  (exists m, parse_message price_command = Return (Some m))
  /\ parse_message bare_command = Return (Some bare_message).
Proof.
  split.
  - exact (proj1 (parse_message_well_shaped price_command eq_refl) eq_refl eq_refl).
  - destruct (proj2 (parse_message_well_shaped bare_command eq_refl)
                eq_refl eq_refl eq_refl eq_refl eq_refl eq_refl) as (_ & _ & Hbare).
    exact Hbare.
Defined.

(** C10, as stated, fails: a payload with type 2 whose ["data"] is [null]
    is a mapping, and [parse_message] raises on it instead of returning a
    message. *)
Lemma parse_message_null_data :
  is_command null_data_command = true
  /\ parse_message null_data_command = Raise AttributeError
  /\ ~ (exists m, parse_message null_data_command = Return (Some m)).
Proof.
  split; [ reflexivity | ]. split; [ reflexivity | ].
  intros [m Hm]. discriminate Hm.
Qed.

Lemma format_response_success_witness :
  (exists text,
      format_response hello_response bare_message
        = Return (Success (PyDict [("type", PyInt 4);
                                   ("data", PyDict [("content", text); ("flags", PyInt 0)])]))
      /\ text = PyStr "hello")
  /\ (exists text,
        format_response plain_response bare_message
          = Return (Success (PyDict [("type", PyInt 4);
                                     ("data", PyDict [("content", text); ("flags", PyInt 0)])]))
        /\ text = PyStr "plain text").
Proof.
  split.
  - destruct (format_response_success hello_response bare_message)
      as (text & Hformat & Htext & _).
    exists text. split; [ exact Hformat | ].
    now destruct (Htext (PyStr "hello") eq_refl).
  - destruct (format_response_success plain_response bare_message)
      as (text & Hformat & _ & Hstr & _).
    exists text. split; [ exact Hformat | ].
    exact (Hstr eq_refl).
Defined.

Lemma handle_challenge_ping_witness :
  handle_challenge (float := Empty_set) [("type", PyInt 1)]
    = Return (Some (Success (PyDict [("type", PyInt 1)])))
  /\ handle_challenge price_command = Return None.
Proof.
  destruct (handle_challenge_ping (float := Empty_set)) as (Hping & Hother).
  split; [ apply Hping | apply Hother ]; reflexivity.
Defined.

(** * Further properties of the adapter *)

Section VerifierMore.

Context {VerifyKey : Type} `{Nacl VerifyKey}.

(** X1: signature verification is active exactly when the configured
    string is not empty, is hexadecimal and is accepted by PyNaCl: then
    and only then does [__init__] keep a verification key; the configured
    string itself is stored as it is. *)
Theorem init_key_active (configured : option string) (vk : VerifyKey) :
  public_key (__init__ configured) = configured
  /\ (_verify_key (__init__ configured) = Some vk <->
      exists k raw,
        configured = Some k /\ k <> "" /\ fromhex k = Return raw
        /\ VerifyKey_new raw = Return vk).
Proof.
  split; [ reflexivity | ].
  unfold __init__; cbn [_verify_key]. split.
  - destruct configured as [k | ]; [ | discriminate ].
    destruct (String.eqb_spec k "") as [-> | Hne]; cbn [negb]; [ discriminate | ].
    destruct (fromhex k) as [raw | e] eqn:Hraw; cbn [bind]; [ | discriminate ].
    destruct (VerifyKey_new raw) as [vk' | e] eqn:Hnew; [ | discriminate ].
    intros Hvk. injection Hvk as <-. exists k, raw. auto.
  - intros (k & raw & -> & Hne & Hraw & Hnew).
    destruct (String.eqb_spec k "") as [ | _]; [ contradiction | ]. cbn [negb].
    rewrite Hraw. cbn [bind]. now rewrite Hnew.
Qed.

(** X2: which spelling of a header counts.  The all-lower-case spelling
    wins: when both headers are there under their lower-case names with
    non-empty values, the result is that for these two values alone,
    whatever else the mapping holds (other headers, or the same headers
    under the other spelling).  A lower-case name that is absent or holds an
    empty value hides nothing: the values under [X-Signature-Ed25519] and
    [X-Signature-Timestamp] are then the ones that are verified. *)
Theorem verify_request_header_precedence (self : DiscordPlatform VerifyKey)
    (headers : headers_t) (body : bytes) (sg ts : string) :
  (assoc "x-signature-ed25519" headers = Some sg -> sg <> "" ->
   assoc "x-signature-timestamp" headers = Some ts -> ts <> "" ->
   verify_request self headers body
     = verify_request self
         [("x-signature-ed25519", sg); ("x-signature-timestamp", ts)] body)
  /\ (assoc "x-signature-ed25519" headers = None
        \/ assoc "x-signature-ed25519" headers = Some "" ->
      assoc "x-signature-timestamp" headers = None
        \/ assoc "x-signature-timestamp" headers = Some "" ->
      assoc "X-Signature-Ed25519" headers = Some sg ->
      assoc "X-Signature-Timestamp" headers = Some ts ->
      verify_request self headers body
        = verify_request self
            [("X-Signature-Ed25519", sg); ("X-Signature-Timestamp", ts)] body).
Proof.
  unfold verify_request, signature_header, timestamp_header, or_else. split.
  - intros Hsg Hsg_ne Hts Hts_ne.
    rewrite Hsg, Hts. cbn [assoc String.eqb Ascii.eqb Bool.eqb present].
    destruct (String.eqb_spec sg "") as [ | _]; [ contradiction | ].
    destruct (String.eqb_spec ts "") as [ | _]; [ contradiction | ].
    reflexivity.
  - intros Hlo_sg Hlo_ts Hsg Hts. rewrite Hsg, Hts.
    destruct Hlo_sg as [-> | ->], Hlo_ts as [-> | ->]; reflexivity.
Qed.

End VerifierMore.

Lemma init_key_active_witness :
  _verify_key (__init__ (H := checksum_nacl) (Some "00 01")) = None
  /\ exists vk, _verify_key (__init__ (H := checksum_nacl) (Some sample_key)) = Some vk.
Proof.
  split.
  - destruct (_verify_key (__init__ (H := checksum_nacl) (Some "00 01"))) as [vk | ] eqn:Hvk;
      [ | reflexivity ].
    destruct (init_key_active (H := checksum_nacl) (Some "00 01") vk) as [_ [Hactive _]].
    destruct (Hactive Hvk) as (k & raw & Hk & _ & Hraw & Hnew).
    injection Hk as <-. vm_compute in Hraw. injection Hraw as <-. discriminate Hnew.
  - eexists.
    apply (init_key_active (H := checksum_nacl) (Some sample_key)).
    exists sample_key. eexists.
    split; [ reflexivity | ]. split; [ discriminate | ]. split; reflexivity.
Defined.

Lemma verify_request_header_precedence_witness :
  verify_request (__init__ (H := checksum_nacl) (Some sample_key))
    (("X-Signature-Ed25519", "00") :: ("accept", "*/*")
     :: lower_keys canonical_headers) []
  = Return true
  /\ verify_request (__init__ (H := checksum_nacl) (Some sample_key))
       (("x-signature-ed25519", "") :: canonical_headers) []
     = Return true.
Proof.
  split.
  - rewrite (proj1 (verify_request_header_precedence _ _ [] sample_signature "1"));
      (reflexivity || discriminate).
  - rewrite (proj2 (verify_request_header_precedence _ _ [] sample_signature "1"));
      try reflexivity; [ now right | now left ].
Defined.

Section ParserMore.

Context {float : Type} `{Builtins float}.

Local Abbreviation value := (value float).
Local Abbreviation pydict := (pydict float).

Lemma mapM_option_arg_raise (l : list value) :
  forallb is_dict l = false -> mapM option_arg l = Raise AttributeError.
Proof.
  induction l as [ | o l IH]; cbn [forallb mapM]; [ discriminate | ].
  destruct o; cbn; try reflexivity.
  intros Hl. now rewrite (IH Hl).
Qed.

Lemma content_block_raises (command_name options : value) :
  options_ok options = false ->
  content_block command_name options = Raise (options_error options).
Proof.
  unfold options_ok, content_block. intros Hbad.
  apply orb_false_elim in Hbad. destruct Hbad as [Ht Hshape].
  apply negb_false_iff in Ht. rewrite Ht.
  destruct options as [ | b | z | f | s | l | d]; try reflexivity.
  - discriminate Ht.
  - destruct s as [ | a s]; [ discriminate Ht | reflexivity ].
  - cbn [iter bind]. now rewrite (mapM_option_arg_raise l Hshape).
  - destruct d as [ | [k v] d]; [ discriminate Ht | reflexivity ].
Qed.

Lemma append_empty (s : string) : s ++ "" = s.
Proof. induction s as [ | c s IH]; cbn; [ reflexivity | now rewrite IH ]. Qed.

Lemma content_block_text (command_name options : value) (c : string) :
  content_block command_name options = Return c ->
  c = "/" ++ str command_name ++ arguments_text options.
Proof.
  intros Hc. pose proof (content_block_inv _ _ _ Hc) as Hok.
  unfold options_ok in Hok.
  destruct (truthy options) eqn:Ht.
  - cbn [negb orb] in Hok. destruct options as [ | | | | | l | ]; try discriminate.
    rewrite (content_block_list command_name l Ht Hok) in Hc.
    destruct l; [ discriminate Ht | ]. cbn [arguments_text]. congruence.
  - rewrite (content_block_falsy _ _ Ht) in Hc.
    assert (Hnone : arguments_text options = "").
    { destruct options as [ | | | | | l | ]; try reflexivity.
      destruct l; [ reflexivity | discriminate Ht ]. }
    rewrite Hnone.
    injection Hc as <-. now rewrite append_empty.
Qed.

Lemma parse_message_ill_shaped (data : pydict) :
  is_command data = true ->
  (command_ok data = false -> parse_message data = Raise (command_error data))
  /\ (command_ok data = true -> actor_ok data = false ->
      parse_message data = Raise AttributeError).
Proof.
  intros Hcmd. rewrite (parse_message_command data Hcmd). cbv zeta.
  unfold command_ok, command_error, actor_ok. split.
  - destruct (get_default data "data" (PyDict [])) as [ | | | | | | cd];
      try reflexivity.
    intros Hbad. cbn [attr_get bind].
    now rewrite (content_block_raises _ _ Hbad).
  - destruct (get_default data "data" (PyDict [])) as [ | | | | | | cd];
      try discriminate.
    intros Hopts. cbn [attr_get bind].
    destruct (content_block_returns (get_default cd "name" (PyStr "")) _ Hopts)
      as (c & ->).
    cbn [bind].
    destruct (get_default data "member" (PyDict [])) as [ | | | | | | member];
      try reflexivity.
    cbn [attr_get bind].
    destruct (get_default member "user" (get_default data "user" (PyDict [])));
      try reflexivity.
    discriminate.
Qed.

(** X3: on a command invocation [parse_message] never returns [None]: it
    returns a message exactly when the command data, the member record and
    the actor record are mappings where they are present, and the options,
    where not empty, are a list of mappings; otherwise it raises. *)
Theorem parse_message_command_outcome (data : pydict) :
  is_command data = true ->
  parse_message data <> Return None
  /\ ((exists m, parse_message data = Return (Some m))
      <-> command_ok data = true /\ actor_ok data = true)
  /\ ((exists e, parse_message data = Raise e)
      <-> command_ok data = false \/ actor_ok data = false).
Proof.
  intros Hcmd.
  destruct (parse_message_ill_shaped data Hcmd) as [Hcommand Hactor].
  destruct (command_ok data) eqn:Hc.
  - destruct (actor_ok data) eqn:Ha.
    + destruct (parse_message_returns data Hcmd Hc Ha)
        as (_ & _ & _ & _ & _ & _ & m & Hm & _).
      rewrite Hm. split; [ discriminate | ]. split; split.
      * auto.
      * eauto.
      * intros [e He]. discriminate.
      * intros [Hbad | Hbad]; discriminate.
    + rewrite (Hactor eq_refl eq_refl). split; [ discriminate | ]. split; split.
      * intros [m Hm]. discriminate.
      * intros [_ Hbad]. discriminate.
      * auto.
      * eauto.
  - rewrite (Hcommand eq_refl). split; [ discriminate | ]. split; split.
    + intros [m Hm]. discriminate.
    + intros [Hbad _]. discriminate.
    + auto.
    + eauto.
Qed.

(** X4: the exception of an ill-shaped command invocation: [TypeError] when
    the options are a non-zero number or [True], which cannot be iterated;
    [AttributeError] in every other case, that is when ["data"], ["member"]
    or the actor record is present without being a mapping ([null], say), or
    when the options are a non-empty string or dict, or a list with an
    element that is no mapping. *)
Theorem parse_message_raises (data : pydict) :
  is_command data = true ->
  (command_ok data = false -> parse_message data = Raise (command_error data))
  /\ (command_ok data = true -> actor_ok data = false ->
      parse_message data = Raise AttributeError)
  /\ (forall e, parse_message data = Raise e -> e = AttributeError \/ e = TypeError).
Proof.
  intros Hcmd.
  destruct (parse_message_ill_shaped data Hcmd) as [Hcommand Hactor].
  split; [ exact Hcommand | ]. split; [ exact Hactor | ].
  intros e He.
  destruct (command_ok data) eqn:Hc.
  - destruct (actor_ok data) eqn:Ha.
    + destruct (parse_message_returns data Hcmd Hc Ha)
        as (_ & _ & _ & _ & _ & _ & m & Hm & _).
      rewrite Hm in He. discriminate.
    + rewrite (Hactor eq_refl eq_refl) in He. left. congruence.
  - rewrite (Hcommand eq_refl) in He. injection He as <-.
    unfold command_error, options_error.
    destruct (get_default data "data" (PyDict [])) as [ | | | | | | cd]; auto.
    destruct (get_default cd "options" (PyList [])); auto.
Qed.

Lemma parse_message_record (data : pydict) (m : BotMessage) :
  parse_message data = Return (Some m) ->
  exists command_data user,
    get_default data "data" (PyDict []) = PyDict command_data
    /\ attr_get (get_default data "member" (PyDict [])) "user"
         (get_default data "user" (PyDict [])) = Return (PyDict user)
    /\ m = {|
      platform := "discord";
      message_id := get_default data "id" (PyStr "");
      user_id := get_default user "id" (PyStr "");
      user_name := get_default user "username" (PyStr "unknown");
      chat_id := py_or (get_default data "channel_id" (PyStr ""))
                       (get_default data "guild_id" (PyStr ""));
      chat_type := if truthy (get_default data "guild_id" (PyStr ""))
                   then GROUP else PRIVATE;
      content := "/" ++ str (get_default command_data "name" (PyStr ""))
                     ++ arguments_text (get_default command_data "options" (PyList []));
      raw_content := "/" ++ str (get_default command_data "name" (PyStr ""))
                         ++ arguments_text (get_default command_data "options" (PyList []));
      mentioned := false;
      mentions := [];
      raw_data := data
    |}.
Proof.
  intros Hm.
  destruct (parse_message_some_inv data m Hm) as (Hcmd & Hc & Ha).
  destruct (parse_message_returns data Hcmd Hc Ha)
    as (cd & user & c & Hdata & Hcontent & Huser & _).
  exists cd, user. split; [ exact Hdata | ]. split; [ exact Huser | ].
  rewrite (parse_message_ok data cd user c Hcmd Hdata Hcontent Huser) in Hm.
  rewrite <- (content_block_text _ _ _ Hcontent). congruence.
Qed.

(** X5: every message that [parse_message] returns carries the adapter's
    platform name, the payload's ["id"] (the empty string without one) and
    the payload itself as raw data, has no mentions, and has a content that
    starts with a slash and is also its raw content. *)
Theorem parse_message_invariants (data : pydict) (m : BotMessage) :
  parse_message data = Return (Some m) ->
  platform m = platform_name
  /\ raw_data m = data
  /\ message_id m = get_default data "id" (PyStr "")
  /\ mentioned m = false /\ mentions m = []
  /\ raw_content m = content m
  /\ exists rest, content m = String "/" rest.
Proof.
  intros Hm.
  destruct (parse_message_record data m Hm) as (cd & user & _ & _ & ->).
  cbn. repeat split. eauto.
Qed.

(** X6: the content of a parsed message in general: a slash, the string
    form of what is under ["name"] (nothing when the name is absent), and,
    when the options are a non-empty list, a space and the options' values
    joined by spaces; options that are absent, empty or another false value
    ([null], [0], [false], an empty string or dict) add nothing. *)
Theorem parse_message_content_general (data command_data : pydict) (m : BotMessage) :
  parse_message data = Return (Some m) ->
  get_default data "data" (PyDict []) = PyDict command_data ->
  content m = "/" ++ str (get_default command_data "name" (PyStr ""))
                  ++ arguments_text (get_default command_data "options" (PyList []))
  /\ (truthy (get_default command_data "options" (PyList [])) = false ->
      content m = "/" ++ str (get_default command_data "name" (PyStr "")))
  /\ (assoc "name" command_data = None ->
      content m = "/" ++ arguments_text (get_default command_data "options" (PyList []))).
Proof.
  intros Hm Hdata.
  destruct (parse_message_record data m Hm) as (cd & user & Hcd & _ & ->).
  rewrite Hdata in Hcd. injection Hcd as <-. cbn [content].
  split; [ reflexivity | ]. split.
  - intros Hfalse.
    assert (Hnone : arguments_text (get_default command_data "options" (PyList [])) = "").
    { destruct (get_default command_data "options" (PyList [])) as [ | | | | | l | ];
        try reflexivity.
      destruct l; [ reflexivity | discriminate Hfalse ]. }
    now rewrite Hnone, append_empty.
  - intros Hname. now rewrite (get_default_none command_data "name" _ Hname).
Qed.

(** X7: the handshake and the parser never both answer: a payload that
    [handle_challenge] acknowledges yields no message, a payload that yields
    a message is no handshake, and [handle_challenge] never raises. *)
Theorem challenge_or_message (data : pydict) :
  (exists answer, handle_challenge data = Return answer)
  /\ (forall r, handle_challenge data = Return (Some r) ->
                parse_message data = Return None)
  /\ (forall m, parse_message data = Return (Some m) ->
                handle_challenge data = Return None).
Proof.
  unfold handle_challenge. split; [ | split ].
  - destruct (eq_int (get data "type") 1); eauto.
  - intros r Hr.
    destruct (eq_int (get data "type") 1) eqn:H1; [ | discriminate ].
    unfold parse_message. now rewrite H1.
  - intros m Hm.
    destruct (parse_message_some_inv data m Hm) as (Hcmd & _).
    now rewrite (is_command_not_ping data Hcmd).
Qed.

End ParserMore.

Lemma parse_message_command_outcome_witness :
  (exists m, parse_message price_command = Return (Some m))
  /\ (exists e, parse_message null_member_command = Raise e).
Proof.
  split.
  - apply (parse_message_command_outcome price_command eq_refl). split; reflexivity.
  - apply (parse_message_command_outcome null_member_command eq_refl). right. reflexivity.
Defined.

Lemma parse_message_raises_witness :
  parse_message numeric_options_command = Raise TypeError
  /\ parse_message null_member_command = Raise AttributeError.
Proof.
  split.
  - exact (proj1 (parse_message_raises numeric_options_command eq_refl) eq_refl).
  - exact (proj1 (proj2 (parse_message_raises null_member_command eq_refl))
             eq_refl eq_refl).
Defined.

Lemma parse_message_invariants_witness :
  platform bare_message = platform_name /\ raw_data bare_message = bare_command.
Proof.
  destruct (parse_message_invariants bare_command bare_message eq_refl)
    as (Hplatform & Hraw & _).
  split; assumption.
Defined.

Lemma parse_message_content_general_witness :
  (exists m, parse_message nameless_command = Return (Some m) /\ content m = "/ 7 ")
  /\ (exists m, parse_message null_options_command = Return (Some m)
                /\ content m = "/12").
Proof.
  split.
  - eexists. split; [ reflexivity | ].
    destruct (parse_message_content_general nameless_command _ _ eq_refl eq_refl)
      as (_ & _ & Hname).
    exact (Hname eq_refl).
  - eexists. split; [ reflexivity | ].
    destruct (parse_message_content_general null_options_command _ _ eq_refl eq_refl)
      as (_ & Hfalse & _).
    exact (Hfalse eq_refl).
Defined.

Lemma challenge_or_message_witness :
  parse_message (float := Empty_set) [("type", PyBool true)] = Return None
  /\ handle_challenge price_command = Return None.
Proof.
  split.
  - destruct (challenge_or_message (float := Empty_set) [("type", PyBool true)])
      as (_ & Hping & _).
    eapply Hping. reflexivity.
  - destruct (challenge_or_message price_command) as (_ & _ & Hmessage).
    eapply Hmessage. reflexivity.
Defined.

(** * Properties of the market review *)

(** ** Cutting text *)

Lemma char_count_take_chars (n : nat) (s : string) :
  (char_count (take_chars n s) <= n)%nat.
Proof.
  revert n. induction s as [ | c s IH]; intros n; cbn [take_chars].
  - cbn. lia.
  - destruct (is_continuation c) eqn:Hc.
    + cbn [char_count]. rewrite Hc. apply IH.
    + destruct n as [ | n]; cbn [char_count]; [ lia | ].
      rewrite Hc. specialize (IH n). lia.
Qed.

Lemma take_chars_short (n : nat) (s : string) :
  (char_count s <= n)%nat -> take_chars n s = s.
Proof.
  revert n. induction s as [ | c s IH]; intros n; cbn [take_chars char_count];
    [ reflexivity | ].
  destruct (is_continuation c).
  - intros Hle. now rewrite IH.
  - destruct n as [ | n]; intros Hle; [ lia | ].
    rewrite IH; [ reflexivity | lia ].
Qed.

Lemma take_chars_prefix (n : nat) (s : string) :
  exists rest, s = take_chars n s ++ rest.
Proof.
  revert n. induction s as [ | c s IH]; intros n; cbn [take_chars].
  - now exists "".
  - destruct (is_continuation c).
    + destruct (IH n) as [rest Hrest]. exists rest. cbn. now rewrite <- Hrest.
    + destruct n as [ | n]; [ now exists (String c s) | ].
      destruct (IH n) as [rest Hrest]. exists rest. cbn. now rewrite <- Hrest.
Qed.

(** X8: [title_and_snippet], the part of [_build_review_prompt] that reads
    a news item, returns exactly for the well-formed items, and then with a
    title of at most 50 characters and a snippet of at most 100.  An
    object whose title is [None] is
    well formed (it shows as an empty title); a dict whose title is [None]
    is not and raises [TypeError]; an object without the attribute [title]
    or [snippet] raises [AttributeError]. *)
Theorem title_and_snippet_cut (n : news_item) :
  ((exists ts, title_and_snippet n = Return ts) <-> item_ok n = true)
  /\ (forall title snippet,
        title_and_snippet n = Return (title, snippet) ->
        (char_count title <= 50)%nat /\ (char_count snippet <= 100)%nat)
  /\ (forall d, n = NewsDict d -> assoc "title" d = Some None ->
        title_and_snippet n = Raise TypeError)
  /\ (forall attrs, n = NewsObject attrs ->
        assoc "title" attrs = None \/ assoc "snippet" attrs = None ->
        title_and_snippet n = Raise AttributeError)
  /\ (forall attrs s, n = NewsObject attrs -> assoc "title" attrs = Some None ->
        assoc "snippet" attrs = Some (Some s) ->
        title_and_snippet n = Return ("", take_chars 100 s)).
Proof.
  split; [ | split; [ | split; [ | split ] ] ].
  - destruct n as [attrs | d]; cbn [title_and_snippet item_ok]; unfold attribute.
    + destruct (assoc "title" attrs) as [t | ];
        [ | split; [ intros [ts Hts]; discriminate | discriminate ] ].
      cbn [bind].
      destruct (assoc "snippet" attrs) as [s | ].
      * split; [ reflexivity | intros _ ].
        destruct t as [t | ], s as [s | ]; cbn;
          repeat match goal with
                 | |- context [negb ?b] => destruct b; cbn
                 end; eauto.
      * split; [ | discriminate ].
        intros [ts Hts].
        destruct t as [t | ]; cbn in Hts;
          repeat match type of Hts with
                 | context [negb ?b] => destruct b; cbn in Hts
                 end; discriminate.
    + destruct (dict_get d "title") as [t | ];
        [ | split; [ intros [ts Hts]; discriminate | discriminate ] ].
      cbn [slice_to bind].
      destruct (dict_get d "snippet") as [s | ]; cbn [slice_to bind].
      * split; eauto.
      * split; [ intros [ts Hts]; discriminate | discriminate ].
  - intros title snippet.
    destruct n as [attrs | d]; cbn [title_and_snippet]; unfold attribute.
    + destruct (assoc "title" attrs) as [t | ]; [ | discriminate ]. cbn [bind].
      destruct (assoc "snippet" attrs) as [s | ].
      * destruct t as [t | ], s as [s | ]; cbn;
          repeat match goal with
                 | |- context [negb ?b] => destruct b; cbn
                 end;
          intros Hts; injection Hts as <- <-;
          split; try apply char_count_take_chars; cbn; lia.
      * destruct t as [t | ]; cbn;
          repeat match goal with
                 | |- context [negb ?b] => destruct b; cbn
                 end; discriminate.
    + destruct (dict_get d "title") as [t | ]; [ | discriminate ].
      cbn [slice_to bind].
      destruct (dict_get d "snippet") as [s | ]; [ | discriminate ].
      cbn [slice_to bind]. intros Hts. injection Hts as <- <-.
      split; apply char_count_take_chars.
  - intros d -> Htitle. cbn [title_and_snippet]. unfold dict_get. now rewrite Htitle.
  - intros attrs -> Hmissing. cbn [title_and_snippet]. unfold attribute.
    destruct (assoc "title" attrs) as [t | ]; [ | reflexivity ].
    destruct Hmissing as [Hbad | Hsnippet]; [ discriminate | ].
    rewrite Hsnippet. cbn [bind].
    destruct t as [t | ]; cbn; [ | reflexivity ].
    now destruct (t =? "")%string.
  - intros attrs s -> Htitle Hsnippet. cbn [title_and_snippet]. unfold attribute.
    rewrite Htitle, Hsnippet. cbn.
    destruct (s =? "")%string eqn:Hs; cbn; [ | reflexivity ].
    apply String.eqb_eq in Hs. now subst s.
Qed.

(** ** The prompt and the template *)

Lemma foldM_returns {A B : Type} (f : B -> A -> result B) (ok : A -> bool)
    (xs : list A) :
  (forall acc x, (exists acc', f acc x = Return acc') <-> ok x = true) ->
  forall acc, (exists r, foldM f xs acc = Return r) <-> forallb ok xs = true.
Proof.
  intros Hstep. induction xs as [ | x xs IH]; intros acc; cbn [foldM forallb].
  - split; eauto.
  - destruct (f acc x) as [acc' | e] eqn:Hf; cbn [bind].
    + assert (Hx : ok x = true) by (apply (Hstep acc x); eauto).
      rewrite Hx. cbn [andb]. apply IH.
    + assert (Hx : ok x = false).
      { destruct (ok x) eqn:Hok; [ | reflexivity ].
        apply (Hstep acc x) in Hok. destruct Hok as [acc' Hacc]. congruence. }
      rewrite Hx. cbn [andb]. split; [ intros [r Hr]; discriminate | discriminate ].
Qed.

Section ReviewFacts.

Context {float : Type} `{Floats float} `{Strings}.

Local Abbreviation MarketIndex := (MarketIndex float).
Local Abbreviation MarketOverview := (MarketOverview float).

Lemma index_line_returns (prefix separator : string) (acc : string) (idx : MarketIndex) :
  (exists acc',
      (let direction := direction_of (change_pct idx) in
       current_text <- format_2f (current idx) ;;
       pct_text <- format_2f (num_abs (change_pct idx)) ;;
       Return (acc ++ prefix ++ name idx ++ separator ++ current_text
                 ++ " (" ++ direction ++ pct_text ++ "%)" ++ nl)) = Return acc')
  <-> printable idx = true.
Proof.
  unfold printable. cbv zeta.
  destruct (format_2f (current idx)) as [c | e]; cbn [bind].
  - destruct (format_2f (num_abs (change_pct idx))) as [p | e]; cbn [bind].
    + split; eauto.
    + split; [ intros [r Hr]; discriminate | discriminate ].
  - split; [ intros [r Hr]; discriminate | discriminate ].
Qed.

Lemma news_line_returns (acc : string) (item : Z * news_item) :
  (exists acc',
      (ts <- title_and_snippet (snd item) ;;
       Return (acc ++ int_str (fst item) ++ ". " ++ fst ts ++ nl
                 ++ "   " ++ snd ts ++ nl)) = Return acc')
  <-> item_ok (snd item) = true.
Proof.
  destruct (title_and_snippet_cut (snd item)) as [Hok _].
  rewrite <- Hok.
  destruct (title_and_snippet (snd item)) as [ts | e]; cbn [bind].
  - split; eauto.
  - split; intros [r Hr]; discriminate.
Qed.

Lemma forallb_enumerate {A : Type} (ok : A -> bool) (start : Z) (xs : list A) :
  forallb (fun item => ok (snd item)) (enumerate start xs) = forallb ok xs.
Proof.
  revert start. induction xs as [ | x xs IH]; intros start; cbn; [ reflexivity | ].
  now rewrite IH.
Qed.

(** X9: [_build_review_prompt] only looks at the first six news items:
    it returns the prompt exactly when the printed numbers of every index
    can be formatted and the first six items are well formed, whatever
    comes after them, and the prompt is the same as that for the first six
    items alone. *)
Theorem build_review_prompt_first_six (overview : MarketOverview)
    (news : list news_item) :
  _build_review_prompt overview news = _build_review_prompt overview (firstn 6 news)
  /\ ((exists prompt, _build_review_prompt overview news = Return prompt)
      <-> forallb printable (indices overview) = true
          /\ forallb item_ok (firstn 6 news) = true).
Proof.
  split.
  - unfold _build_review_prompt. rewrite firstn_firstn. reflexivity.
  - unfold _build_review_prompt.
    pose proof (foldM_returns _ printable (indices overview)
                  (index_line_returns "- " ": ") "") as Hindices.
    destruct (foldM _ (indices overview) "") as [indices_text | e]; cbn [bind].
    + assert (Hprintable : forallb printable (indices overview) = true)
        by (apply Hindices; eauto).
      rewrite Hprintable.
      pose proof (foldM_returns _ (fun item => item_ok (snd item))
                    (enumerate 1 (firstn 6 news)) news_line_returns "") as Hnews.
      rewrite forallb_enumerate in Hnews.
      destruct (foldM _ (enumerate 1 (firstn 6 news)) "") as [news_text | e];
        cbn [bind].
      * split; [ intros _; split; [ reflexivity | apply Hnews; eauto ] | eauto ].
      * split; [ intros [p Hp]; discriminate | ].
        intros [_ Hok]. apply Hnews in Hok. destruct Hok as [r Hr]. discriminate.
    + split; [ intros [p Hp]; discriminate | ].
      intros [Hok _]. apply Hindices in Hok. destruct Hok as [r Hr]. discriminate.
Qed.

End ReviewFacts.

Lemma try_except_retry {A : Type} (m : result A) : try_except m (fun _ => m) = m.
Proof. now destruct m. Qed.

Section TemplateFacts.

Context {float : Type} `{Floats float} `{Strings}.

Local Abbreviation MarketIndex := (MarketIndex float).
Local Abbreviation MarketOverview := (MarketOverview float).

Lemma template_returns (clock : string) (overview : MarketOverview)
    (news : list news_item) :
  (exists report, _generate_template_review clock overview news = Return report)
  <-> forallb printable (indices overview) = true.
Proof.
  unfold _generate_template_review. cbv zeta.
  pose proof (foldM_returns _ printable (indices overview)
                (index_line_returns "- **" "**: ") "") as Hindices.
  destruct (foldM _ (indices overview) "") as [indices_text | e]; cbn [bind].
  - split; [ intros _; apply Hindices; eauto | eauto ].
  - split; [ intros [r Hr]; discriminate | ].
    intros Hok. apply Hindices in Hok. destruct Hok as [r Hr]. discriminate.
Qed.

Lemma template_not_empty (clock : string) (overview : MarketOverview)
    (news : list news_item) (report : string) :
  _generate_template_review clock overview news = Return report -> report <> "".
Proof.
  unfold _generate_template_review. cbv zeta.
  destruct (foldM _ (indices overview) "") as [indices_text | e]; cbn [bind];
    [ | discriminate ].
  intros Hreport. injection Hreport as <-. discriminate.
Qed.

Lemma num_gt_mono (n : num float) (a b : Z) :
  a <= b -> num_gt n b = true -> num_gt n a = true.
Proof.
  destruct n as [z | f]; cbn [num_gt].
  - intros Hab Hb. apply Z.ltb_lt in Hb. apply Z.ltb_lt. lia.
  - apply fgt_int_mono.
Qed.

Lemma num_eq_gt (n : num float) (k : Z) :
  eq_int (num_value n) k = true ->
  num_gt n k = false /\ num_lt n k = false
  /\ forall m, m < k -> num_gt n m = true.
Proof.
  destruct n as [z | f]; cbn [num_value eq_int num_gt num_lt].
  - intros Heq. apply Z.eqb_eq in Heq. subst z.
    split; [ apply Z.ltb_irrefl | ]. split; [ apply Z.ltb_irrefl | ].
    intros m Hm. now apply Z.ltb_lt.
  - intros Heq. split; [ now apply feq_not_gt | ]. split; [ now apply feq_not_lt | ].
    intros m Hm. now apply (feq_gt_below f k m).
Qed.

Lemma num_gt_false_above (n : num float) (a b : Z) :
  a <= b -> num_gt n a = false -> num_gt n b = false.
Proof.
  intros Hab Ha. destruct (num_gt n b) eqn:Hb; [ | reflexivity ].
  rewrite (num_gt_mono n a b Hab Hb) in Ha. discriminate.
Qed.

(** X10: the mood of the template report at the boundaries.  With [idx]
    the first index whose code is [^IXIC]: a rise is announced (strong or
    small) exactly when the line of the index carries the marker of a rise;
    a change of exactly 1 percent is a small rise, not a strong one; a
    change of exactly 0 is announced as a small fall although the marker is
    the neutral one; a change of exactly -1 percent is a clear fall. *)
Theorem market_mood_boundaries (indices : list MarketIndex) (idx : MarketIndex) :
  find (fun idx => String.eqb (code idx) "^IXIC") indices = Some idx ->
  ((market_mood indices = "强势上涨" \/ market_mood indices = "小幅上涨")
   <-> direction_of (change_pct idx) = "↑")
  /\ (eq_int (num_value (change_pct idx)) 1 = true -> market_mood indices = "小幅上涨")
  /\ (eq_int (num_value (change_pct idx)) 0 = true ->
      market_mood indices = "小幅下跌" /\ direction_of (change_pct idx) = "-")
  /\ (eq_int (num_value (change_pct idx)) (-1) = true ->
      market_mood indices = "明显下跌").
Proof.
  intros Hfind. unfold market_mood, direction_of. cbv zeta. rewrite Hfind.
  split; [ | split; [ | split ] ].
  - destruct (num_gt (change_pct idx) 1) eqn:Hstrong.
    + rewrite (num_gt_mono _ 0 1 ltac:(lia) Hstrong). split; auto.
    + destruct (num_gt (change_pct idx) 0) eqn:Hrise; [ split; auto | ].
      split.
      * destruct (num_gt (change_pct idx) (-1)); intros [Hbad | Hbad]; discriminate.
      * destruct (num_lt (change_pct idx) 0); discriminate.
  - intros Heq. destruct (num_eq_gt _ _ Heq) as (Hgt & _ & Hbelow).
    now rewrite Hgt, (Hbelow 0 ltac:(lia)).
  - intros Heq. destruct (num_eq_gt _ _ Heq) as (Hgt & Hlt & Hbelow).
    rewrite (num_gt_false_above _ 0 1 ltac:(lia) Hgt), Hgt, Hlt.
    now rewrite (Hbelow (-1) ltac:(lia)).
  - intros Heq. destruct (num_eq_gt _ _ Heq) as (Hgt & _ & _).
    rewrite (num_gt_false_above _ (-1) 1 ltac:(lia) Hgt).
    rewrite (num_gt_false_above _ (-1) 0 ltac:(lia) Hgt).
    now rewrite Hgt.
Qed.

(** X11: the text that [generate_market_review] returns is never empty,
    and the exceptions of the model never come out of it: with indices whose
    numbers can be formatted, it returns whenever there is no analyzer, or
    the analyzer says it is not available, or it is available and the first
    six news items are well formed, whatever the calls of the model do. *)
Theorem generate_market_review_returns (analyzer : option Analyzer) (clock : string)
    (overview : MarketOverview) (news : list news_item) :
  (forall report,
      generate_market_review analyzer clock overview news = Return report ->
      report <> "")
  /\ (forallb printable (indices overview) = true ->
      analyzer = None
      \/ (exists a, analyzer = Some a
                    /\ (is_available a = Return false
                        \/ (is_available a = Return true
                            /\ forallb item_ok (firstn 6 news) = true))) ->
      exists report, generate_market_review analyzer clock overview news = Return report).
Proof.
  split.
  - intros report. unfold generate_market_review.
    destruct analyzer as [a | ]; [ | apply template_not_empty ].
    destruct (is_available a) as [available | e]; cbn [bind]; [ | discriminate ].
    destruct available; cbn [negb]; [ | apply template_not_empty ].
    destruct (_build_review_prompt overview news) as [prompt | e]; cbn [bind];
      [ | discriminate ].
    destruct (if _use_openai a then _ else _) as [review | e];
      cbn [bind try_except]; [ | apply template_not_empty ].
    destruct review as [r | ]; cbn [present];
      [ | rewrite try_except_retry; apply template_not_empty ].
    destruct (String.eqb_spec r "") as [ | Hne]; cbn [negb];
      [ rewrite try_except_retry; apply template_not_empty | ].
    cbn [try_except]. congruence.
  - intros Hprintable Hcases.
    pose proof (proj2 (template_returns clock overview news) Hprintable) as [t Ht].
    unfold generate_market_review.
    destruct Hcases as [-> | (a & -> & [Hno | [Hyes Hitems]])]; [ eauto | | ].
    + rewrite Hno. cbn. eauto.
    + rewrite Hyes. cbn [bind negb].
      destruct (proj2 (proj2 (build_review_prompt_first_six overview news))
                  (conj Hprintable Hitems)) as [prompt ->].
      cbn [bind].
      destruct (if _use_openai a then _ else _) as [review | e];
        cbn [bind try_except]; [ | eauto ].
      destruct review as [r | ]; cbn [present];
        [ | rewrite try_except_retry; eauto ].
      destruct (negb (r =? "")%string); [ cbn [try_except]; eauto | ].
      rewrite try_except_retry; eauto.
Qed.

(** X12: what [generate_market_review] makes of the answer of the model,
    once the analyzer is available and the prompt is built.  Through the
    OpenAI interface a non-empty answer is returned as it is; through the
    Gemini interface the text of the response is returned stripped; and
    every failure (an exception, no response, no text, an empty text, a text
    that strips to nothing) gives the template report. *)
Theorem generate_market_review_model (a : Analyzer) (clock prompt : string)
    (overview : MarketOverview) (news : list news_item) :
  is_available a = Return true ->
  _build_review_prompt overview news = Return prompt ->
  (forall r, _use_openai a = true -> _call_openai_api a prompt = Return (Some r) ->
             r <> "" ->
             generate_market_review (Some a) clock overview news = Return r)
  /\ (forall t, _use_openai a = false ->
                generate_content a prompt = Return (Some (Some t)) ->
                t <> "" -> str_strip t <> "" ->
                generate_market_review (Some a) clock overview news
                  = Return (str_strip t))
  /\ (_use_openai a = true ->
      (exists e, _call_openai_api a prompt = Raise e)
      \/ _call_openai_api a prompt = Return None
      \/ _call_openai_api a prompt = Return (Some "") ->
      generate_market_review (Some a) clock overview news
        = _generate_template_review clock overview news)
  /\ (_use_openai a = false ->
      (exists e, generate_content a prompt = Raise e)
      \/ generate_content a prompt = Return None
      \/ generate_content a prompt = Return (Some None)
      \/ (exists t, generate_content a prompt = Return (Some (Some t))
                    /\ (t = "" \/ str_strip t = "")) ->
      generate_market_review (Some a) clock overview news
        = _generate_template_review clock overview news).
Proof.
  intros Havailable Hprompt. unfold generate_market_review.
  rewrite Havailable. cbn [bind negb]. rewrite Hprompt. cbn [bind].
  split; [ | split; [ | split ] ].
  - intros r -> -> Hne. cbn [bind present].
    destruct (String.eqb_spec r "") as [ | _]; [ contradiction | reflexivity ].
  - intros t -> -> Ht Hstrip. cbn [bind present].
    destruct (String.eqb_spec t "") as [ | _]; [ contradiction | ].
    cbn [negb option_map present].
    destruct (String.eqb_spec (str_strip t) "") as [ | _]; [ contradiction | reflexivity ].
  - intros -> [[e ->] | [-> | ->]]; cbn; try reflexivity.
    now destruct (_generate_template_review clock overview news).
    now destruct (_generate_template_review clock overview news).
  - intros -> [[e ->] | [-> | [-> | (t & -> & Hempty)]]]; cbn [bind present];
      try reflexivity; cbn [try_except].
    + now destruct (_generate_template_review clock overview news).
    + now destruct (_generate_template_review clock overview news).
    + destruct (String.eqb_spec t "") as [ | Hne]; cbn [negb option_map present].
      * now destruct (_generate_template_review clock overview news).
      * destruct Hempty as [ | Hstrip]; [ contradiction | ]. rewrite Hstrip.
        cbn. now destruct (_generate_template_review clock overview news).
Qed.

End TemplateFacts.

(** ** The sources *)

Section SearchFacts.

Context `{Strings} {S : Type} `{SearchService S}.

Lemma search_loop_invariant (P : news_item -> Prop) :
  (forall service stock_code stock_name max_results keywords r service',
      search_stock_news service stock_code stock_name max_results keywords
        = (Return (Some r), service') ->
      Forall P (results r)) ->
  forall queries service all_news,
    Forall P all_news -> Forall P (fst (search_loop service queries all_news)).
Proof.
  intros Hservice. induction queries as [ | query rest IH]; intros service all_news Hall;
    cbn [search_loop]; [ exact Hall | ].
  destruct (search_stock_news service "market" "大盘" 3 (str_split query))
    as [outcome service'] eqn:Hcall.
  destruct outcome as [response | e]; [ | exact Hall ].
  apply IH.
  destruct response as [r | ]; [ | exact Hall ].
  destruct (results r) as [ | n ns] eqn:Hresults; [ exact Hall | ].
  apply Forall_app. split; [ exact Hall | ].
  rewrite <- Hresults. exact (Hservice _ _ _ _ _ _ _ Hcall).
Qed.

Lemma search_loop_length :
  bounded_results ->
  forall queries service all_news,
    (length (fst (search_loop service queries all_news))
     <= length all_news + 3 * length queries)%nat.
Proof.
  intros Hbound. induction queries as [ | query rest IH]; intros service all_news;
    cbn [search_loop]; [ cbn; lia | ].
  destruct (search_stock_news service "market" "大盘" 3 (str_split query))
    as [outcome service'] eqn:Hcall.
  destruct outcome as [response | e]; [ | cbn; lia ].
  etransitivity; [ apply IH | ]. cbn [length].
  destruct response as [r | ]; [ | lia ].
  assert (Hr : Z.of_nat (length (results r)) <= 3)
    by (refine (Hbound _ _ _ 3 _ _ _ _ Hcall); lia).
  destruct (results r) as [ | n ns] eqn:Hresults; [ lia | ].
  rewrite length_app. lia.
Qed.

(** X13: when the search service keeps to [max_results],
    [search_market_news] returns at most nine items (three queries of three
    results); without a search service it returns none. *)
Theorem search_market_news_bounded (search_service : option S) :
  bounded_results ->
  (length (fst (search_market_news search_service)) <= 9)%nat
  /\ (search_service = None -> search_market_news search_service = ([], None)).
Proof.
  intros Hbound. split.
  - destruct search_service as [service | ]; cbn [search_market_news]; [ | cbn; lia ].
    pose proof (search_loop_length Hbound
                  ["纳斯达克 NASDAQ 行情 分析"; "恒生指数 HSI 市场 走势"; "美股 港股 市场 热点"]
                  service []) as Hlen.
    destruct (search_loop service _ []) as [all_news service']. cbn in *. lia.
  - now intros ->.
Qed.

(** X14: an exception of the search service ends the search without
    losing what was found: when the first query succeeds and the second
    raises, the results of the first are returned, and the third query is
    not sent (the service is left as the failed call left it); when the
    first query raises, nothing is returned and nothing more is sent. *)
Theorem search_market_news_partial (service s1 s2 : S) (r1 : SearchResponse) (e : exn) :
  (search_stock_news service "market" "大盘" 3
     (str_split "纳斯达克 NASDAQ 行情 分析") = (Raise e, s1) ->
   search_market_news (Some service) = ([], Some s1))
  /\ (search_stock_news service "market" "大盘" 3
        (str_split "纳斯达克 NASDAQ 行情 分析") = (Return (Some r1), s1) ->
      search_stock_news s1 "market" "大盘" 3
        (str_split "恒生指数 HSI 市场 走势") = (Raise e, s2) ->
      search_market_news (Some service) = (results r1, Some s2)).
Proof.
  split.
  - intros Hfirst. cbn [search_market_news search_loop]. now rewrite Hfirst.
  - intros Hfirst Hsecond. cbn [search_market_news search_loop].
    rewrite Hfirst. cbn [app]. destruct (results r1); now rewrite Hsecond.
Qed.

End SearchFacts.

Section YahooFacts.

Context {float : Type} `{Floats float}.
Context {yahoo frame row : Type} `{Yahoo yahoo frame row float}.

Local Abbreviation MarketIndex := (MarketIndex float).

Lemma add_index_cases (indices : list MarketIndex) (y : yahoo) (item : string * string) :
  exists y',
    add_index (indices, y) item = (indices, y')
    \/ exists idx,
         add_index (indices, y) item = ((indices ++ [idx])%list, y')
         /\ code idx = fst item /\ name idx = snd item /\ index_invariant idx.
Proof.
  destruct item as [c n]. unfold add_index.
  destruct (history y c) as [fetched y']. exists y'.
  destruct fetched as [hist | e]; cbn [bind]; [ | now left ].
  destruct (frame_empty hist); [ now left | ].
  destruct (iloc hist (-1)) as [today | e]; cbn [bind]; [ | now left ].
  destruct (if (1 <? frame_len hist)%nat then iloc hist (-2) else Return today)
    as [prev | e]; cbn [bind]; [ | now left ].
  destruct (row_float today "Close") as [price | e]; cbn [bind]; [ | now left ].
  destruct (row_float prev "Close") as [prev_close | e]; cbn [bind]; [ | now left ].
  destruct (row_float today "High") as [high_ | e]; cbn [bind]; [ | now left ].
  destruct (row_float today "Low") as [low_ | e]; cbn [bind]; [ | now left ].
  destruct (row_float today "Open") as [open_ | e]; cbn [bind]; [ | now left ].
  destruct (row_float today "Volume") as [volume_ | e]; cbn [bind]; [ | now left ].
  right. eexists. split; [ reflexivity | ]. cbn [code name fst snd].
  split; [ reflexivity | ]. split; [ reflexivity | ].
  exists price, prev_close, high_, low_. cbn.
  repeat (split; [ reflexivity | ]).
  split; intros ->; cbn; split; reflexivity.
Qed.

(** X15: [_get_main_indices] returns the NASDAQ index, the Hang Seng
    index, both in this order, or none, each under its own name, whatever
    Yahoo answers or raises for one or the other: no exception of Yahoo or
    of the frame comes out of it. *)
Theorem get_main_indices_order (y : yahoo) :
  let codes := map (fun idx => (code idx, name idx)) (fst (_get_main_indices y)) in
  codes = [] \/ codes = [nasdaq] \/ codes = [hang_seng] \/ codes = [nasdaq; hang_seng].
Proof.
  cbv zeta. unfold _get_main_indices. cbn [fold_left].
  destruct (add_index_cases [] y ("^IXIC", "纳斯达克综合指数"))
    as (y1 & [-> | (idx1 & -> & Hc1 & Hn1 & _)]).
  - destruct (add_index_cases [] y1 ("^HSI", "恒生指数"))
      as (y2 & [-> | (idx2 & -> & Hc2 & Hn2 & _)]).
    + now left.
    + right; right; left. cbn. now rewrite Hc2, Hn2.
  - cbn [app].
    destruct (add_index_cases [idx1] y1 ("^HSI", "恒生指数"))
      as (y2 & [-> | (idx2 & -> & Hc2 & Hn2 & _)]).
    + right; left. cbn. now rewrite Hc1, Hn1.
    + right; right; right. cbn. now rewrite Hc1, Hn1, Hc2, Hn2.
Qed.

Lemma get_main_indices_invariant (y : yahoo) :
  Forall index_invariant (fst (_get_main_indices y)).
Proof.
  unfold _get_main_indices. cbn [fold_left].
  destruct (add_index_cases [] y ("^IXIC", "纳斯达克综合指数"))
    as (y1 & [-> | (idx1 & -> & _ & _ & Hinv1)]).
  - destruct (add_index_cases [] y1 ("^HSI", "恒生指数"))
      as (y2 & [-> | (idx2 & -> & _ & _ & Hinv2)]); cbn; auto.
  - cbn [app].
    destruct (add_index_cases [idx1] y1 ("^HSI", "恒生指数"))
      as (y2 & [-> | (idx2 & -> & _ & _ & Hinv2)]); cbn; auto.
Qed.

(** X16: every index that [_get_main_indices] returns has a change equal
    to its current price less its previous close and an amount of [0.0];
    its percentage change and its amplitude are the [int] zero exactly when
    the previous close is zero, and otherwise the quotients by the previous
    close times 100, so that no division by zero is attempted. *)
Theorem get_main_indices_numbers (y : yahoo) (idx : MarketIndex) :
  In idx (fst (_get_main_indices y)) -> index_invariant idx.
Proof.
  intros Hin.
  exact (proj1 (Forall_forall _ _) (get_main_indices_invariant y) idx Hin).
Qed.

Lemma add_index_single_day (indices : list MarketIndex) (y y' : yahoo)
    (hist : frame) (c n : string) :
  history y c = (Return hist, y') -> (frame_len hist <= 1)%nat ->
  add_index (indices, y) (c, n) = (indices, y')
  \/ exists price idx,
       add_index (indices, y) (c, n) = ((indices ++ [idx])%list, y')
       /\ current idx = NFloat price /\ prev_close idx = NFloat price
       /\ change idx = NFloat (fsub price price).
Proof.
  intros Hhist Hlen. unfold add_index. rewrite Hhist. cbn [bind].
  destruct (frame_empty hist); [ now left | ].
  destruct (iloc hist (-1)) as [today | e]; cbn [bind]; [ | now left ].
  assert (Hone : (1 <? frame_len hist)%nat = false) by (apply Nat.ltb_ge; lia).
  rewrite Hone. cbn [bind].
  destruct (row_float today "Close") as [price | e]; cbn [bind]; [ | now left ].
  destruct (row_float today "High") as [high_ | e]; cbn [bind]; [ | now left ].
  destruct (row_float today "Low") as [low_ | e]; cbn [bind]; [ | now left ].
  destruct (row_float today "Open") as [open_ | e]; cbn [bind]; [ | now left ].
  destruct (row_float today "Volume") as [volume_ | e]; cbn [bind]; [ | now left ].
  right. exists price. eexists. split; [ reflexivity | ]. cbn. auto.
Qed.

(** X19: with a history of a single day, the day stands for the previous
    one as well: the NASDAQ index that [_get_main_indices] then returns has
    a previous close equal to its current price, and its change is that
    price less itself. *)
Theorem get_main_indices_single_day (y y1 : yahoo) (hist : frame) (idx : MarketIndex) :
  history y "^IXIC" = (Return hist, y1) -> (frame_len hist <= 1)%nat ->
  In idx (fst (_get_main_indices y)) -> code idx = "^IXIC" ->
  exists price,
    current idx = NFloat price /\ prev_close idx = NFloat price
    /\ change idx = NFloat (fsub price price).
Proof.
  intros Hhist Hlen. unfold _get_main_indices. cbn [fold_left].
  destruct (add_index_single_day [] y y1 hist "^IXIC" "纳斯达克综合指数" Hhist Hlen)
    as [-> | (price & idx1 & -> & Hcurrent & Hprev & Hchange)].
  - destruct (add_index_cases [] y1 ("^HSI", "恒生指数"))
      as (y2 & [-> | (idx2 & -> & Hc2 & _)]); cbn [fst app In].
    + contradiction.
    + intros [<- | []] Hcode. rewrite Hc2 in Hcode. discriminate.
  - cbn [app].
    destruct (add_index_cases [idx1] y1 ("^HSI", "恒生指数"))
      as (y2 & [-> | (idx2 & -> & Hc2 & _)]); cbn [fst app In].
    + intros [<- | []] _. eauto.
    + intros [<- | [<- | []]] Hcode; [ eauto | ].
      rewrite Hc2 in Hcode. discriminate.
Qed.

Lemma index_invariant_printable (idx : MarketIndex) :
  index_invariant idx -> printable idx = true.
Proof.
  intros (price & prev & h & l & Hcurrent & _ & _ & _ & _ & _ & Hzero & Hnonzero).
  unfold printable. rewrite Hcurrent. cbn [format_2f].
  destruct (float_eq_int prev 0) eqn:Hprev.
  - destruct (Hzero eq_refl) as [-> _]. cbn [num_abs format_2f Z.abs].
    now rewrite int_format_2f_zero.
  - now destruct (Hnonzero eq_refl) as [-> _].
Qed.

End YahooFacts.

(** ** The daily review *)

Lemma forallb_firstn {A : Type} (ok : A -> bool) (n : nat) (xs : list A) :
  forallb ok xs = true -> forallb ok (firstn n xs) = true.
Proof.
  revert n. induction xs as [ | x xs IH]; intros n; [ now rewrite firstn_nil | ].
  destruct n as [ | n]; [ reflexivity | ].
  cbn [firstn forallb]. intros Hall. apply andb_prop in Hall.
  destruct Hall as [-> Hxs]. cbn [andb]. now apply IH.
Qed.

Section DailyReview.

Context {float : Type} `{Floats float} `{Strings}.
Context {S : Type} `{SearchService S}.
Context {yahoo frame row : Type} `{Yahoo yahoo frame row float}.

Lemma search_market_news_well_formed (search_service : option S) :
  well_formed_results ->
  forallb item_ok (fst (search_market_news search_service)) = true.
Proof.
  intros Hwf. destruct search_service as [service | ]; cbn [search_market_news];
    [ | reflexivity ].
  pose proof (search_loop_invariant (fun n => item_ok n = true)) as Hloop.
  specialize (Hloop ltac:(intros; apply Forall_forall; apply forallb_forall; eauto)).
  specialize (Hloop ["纳斯达克 NASDAQ 行情 分析"; "恒生指数 HSI 市场 走势"; "美股 港股 市场 热点"]
                service [] (Forall_nil _)).
  destruct (search_loop service _ []) as [all_news service']. cbn [fst] in *.
  apply forallb_forall. now apply Forall_forall.
Qed.

(** X17: [run_daily_review] ends in a report that is not empty, whatever
    Yahoo and the model answer or raise and whether the search raises or
    not, provided the search service returns well-formed items and the
    analyzer, when there is one, answers [is_available()]. *)
Theorem run_daily_review_reports (search_service : option S)
    (analyzer : option Analyzer) (today clock : string) (y : yahoo) :
  well_formed_results ->
  analyzer = None
  \/ (exists a available, analyzer = Some a /\ is_available a = Return available) ->
  exists report,
    fst (fst (run_daily_review search_service analyzer today clock y)) = Return report
    /\ report <> "".
Proof.
  intros Hwf Hanalyzer. unfold run_daily_review, get_market_overview.
  pose proof (get_main_indices_invariant y) as Hindices.
  destruct (_get_main_indices y) as [found_indices y']. cbn [fst] in Hindices.
  pose proof (search_market_news_well_formed search_service Hwf) as Hnews.
  destruct (search_market_news search_service) as [news search_service'].
  cbn [fst] in *.
  set (overview := {| date := today; indices := found_indices |}).
  assert (Hprintable : forallb printable (indices overview) = true).
  { apply forallb_forall. intros idx Hin.
    apply index_invariant_printable.
    exact (proj1 (Forall_forall _ _) Hindices idx Hin). }
  destruct (generate_market_review_returns analyzer clock overview news)
    as [Hnonempty Hreturns].
  destruct (Hreturns Hprintable) as [report Hreport].
  - destruct Hanalyzer as [-> | (a & available & -> & Ha)]; [ now left | ].
    right. exists a. split; [ reflexivity | ].
    destruct available; [ right | now left ].
    split; [ exact Ha | now apply forallb_firstn ].
  - exists report. split; [ exact Hreport | exact (Hnonempty report Hreport) ].
Qed.

End DailyReview.

Section ToDict.

Context {float : Type} `{Floats float}.

Lemma num_value_inj (a b : num float) : num_value a = num_value b -> a = b.
Proof. destruct a, b; cbn; congruence. Qed.

(** X18: [MarketIndex.to_dict] leaves the previous close out and keeps
    everything else: the dict has no entry ["prev_close"] and does not
    change with the previous close, and two indices with the same dict
    differ at most in their previous close. *)
Theorem to_dict_without_prev_close (idx other : MarketIndex float) (p : num float) :
  assoc "prev_close" (to_dict idx) = None
  /\ to_dict (with_prev_close idx p) = to_dict idx
  /\ (to_dict idx = to_dict other -> with_prev_close idx (prev_close other) = other).
Proof.
  split; [ reflexivity | ]. split; [ reflexivity | ].
  destruct idx, other. unfold to_dict, with_prev_close. cbn.
  intros Hdict. injection Hdict as Hcode Hname Hcurrent Hchange Hpct Hopen Hhigh
    Hlow Hvolume Hamount Hamplitude.
  apply num_value_inj in Hcurrent, Hchange, Hpct, Hopen, Hhigh, Hlow, Hvolume,
    Hamount, Hamplitude.
  congruence.
Qed.

End ToDict.

(** ** The properties of the review on concrete inputs *)

Lemma scripted_search_bounded : bounded_results (S := list (result (option found))).
Proof.
  intros script stock_code stock_name max_results keywords r script' Hmax.
  cbn [search_stock_news scripted_search].
  destruct script as [ | outcome script]; [ discriminate | ].
  intros Hcall. injection Hcall as Hresponse _.
  destruct outcome as [[items | ] | e]; try discriminate.
  cbn in Hresponse. injection Hresponse as <-. cbn [results].
  rewrite length_map. pose proof (firstn_le_length (Z.to_nat max_results) items). lia.
Qed.

Lemma scripted_search_well_formed :
  well_formed_results (S := list (result (option found))).
Proof.
  intros script stock_code stock_name max_results keywords r script'.
  cbn [search_stock_news scripted_search].
  destruct script as [ | outcome script]; [ discriminate | ].
  intros Hcall. injection Hcall as Hresponse _.
  destruct outcome as [[items | ] | e]; try discriminate.
  cbn in Hresponse. injection Hresponse as <-. cbn [results].
  apply forallb_forall. intros n Hin. apply in_map_iff in Hin.
  destruct Hin as (item & <- & _). reflexivity.
Qed.

Lemma title_and_snippet_cut_witness :
  title_and_snippet null_title_dict = Raise TypeError
  /\ title_and_snippet null_title_object = Return ("", "纳斯达克收高")
  /\ title_and_snippet (NewsObject [("title", Some "标题")]) = Raise AttributeError.
Proof.
  split; [ | split ].
  - destruct (title_and_snippet_cut null_title_dict) as (_ & _ & Hdict & _).
    exact (Hdict _ eq_refl eq_refl).
  - destruct (title_and_snippet_cut null_title_object) as (_ & _ & _ & _ & Hobject).
    exact (Hobject _ "纳斯达克收高" eq_refl eq_refl eq_refl).
  - destruct (title_and_snippet_cut (NewsObject [("title", Some "标题")]))
      as (_ & _ & _ & Hmissing & _).
    exact (Hmissing _ eq_refl (or_intror eq_refl)).
Defined.

Lemma build_review_prompt_first_six_witness :
  (exists prompt, _build_review_prompt flat_overview seven_news = Return prompt)
  /\ _build_review_prompt flat_overview seven_news
     = _build_review_prompt flat_overview (repeat null_title_object 6).
Proof.
  split.
  - apply (build_review_prompt_first_six flat_overview seven_news). split; reflexivity.
  - exact (proj1 (build_review_prompt_first_six flat_overview seven_news)).
Defined.

Lemma market_mood_boundaries_witness :
  market_mood (indices flat_overview) = "小幅下跌"
  /\ direction_of (change_pct flat_nasdaq) = "-".
Proof.
  destruct (market_mood_boundaries (indices flat_overview) flat_nasdaq eq_refl)
    as (_ & _ & Hzero & _).
  exact (Hzero eq_refl).
Defined.

Lemma generate_market_review_returns_witness :
  exists report,
    generate_market_review (Some failing_gemini_analyzer) "09:30" flat_overview seven_news
      = Return report
    /\ report <> "".
Proof.
  destruct (generate_market_review_returns (Some failing_gemini_analyzer) "09:30"
              flat_overview seven_news) as [Hnonempty Hreturns].
  destruct Hreturns as [report Hreport].
  - reflexivity.
  - right. exists failing_gemini_analyzer. split; [ reflexivity | ].
    right. split; reflexivity.
  - exists report. split; [ exact Hreport | exact (Hnonempty report Hreport) ].
Defined.

Lemma generate_market_review_model_witness :
  generate_market_review (Some openai_analyzer) "09:30" flat_overview seven_news
    = Return " 复盘 "
  /\ generate_market_review (Some failing_gemini_analyzer) "09:30" flat_overview seven_news
     = _generate_template_review "09:30" flat_overview seven_news.
Proof.
  split.
  - destruct (generate_market_review_model openai_analyzer "09:30" _ flat_overview
                seven_news eq_refl eq_refl) as (Hopenai & _).
    apply Hopenai; [ reflexivity | reflexivity | discriminate ].
  - destruct (generate_market_review_model failing_gemini_analyzer "09:30" _
                flat_overview seven_news eq_refl eq_refl) as (_ & _ & _ & Hgemini).
    apply Hgemini; [ reflexivity | ]. left. exists ValueError. reflexivity.
Defined.

Lemma search_market_news_bounded_witness :
  (length (fst (search_market_news (Some generous_search))) <= 9)%nat.
Proof.
  exact (proj1 (search_market_news_bounded (Some generous_search)
                  scripted_search_bounded)).
Defined.

Lemma search_market_news_partial_witness :
  search_market_news (Some failing_search)
  = ([search_result (Some "标题", None)], Some [Return (Some five_found)]).
Proof.
  destruct (search_market_news_partial failing_search
              [Raise ValueError; Return (Some five_found)]
              [Return (Some five_found)]
              {| results := [search_result (Some "标题", None)] |} ValueError)
    as (_ & Hpartial).
  apply Hpartial; reflexivity.
Defined.

Lemma get_main_indices_numbers_witness :
  exists idx,
    In idx (fst (_get_main_indices one_day_yahoo))
    /\ code idx = "^IXIC" /\ index_invariant idx.
Proof.
  eexists. split; [ left; reflexivity | ]. split; [ reflexivity | ].
  apply (get_main_indices_numbers one_day_yahoo). left. reflexivity.
Defined.

Lemma run_daily_review_reports_witness :
  exists report,
    fst (fst (run_daily_review (Some failing_search) (Some failing_gemini_analyzer)
                "2026-01-05" "09:30" one_day_yahoo)) = Return report
    /\ report <> "".
Proof.
  apply (run_daily_review_reports (Some failing_search) (Some failing_gemini_analyzer)
           "2026-01-05" "09:30" one_day_yahoo scripted_search_well_formed).
  right. exists failing_gemini_analyzer, true. split; reflexivity.
Defined.

Lemma to_dict_without_prev_close_witness :
  to_dict (with_prev_close flat_nasdaq (NInt 7)) = to_dict flat_nasdaq
  /\ with_prev_close flat_nasdaq (NFloat 1500025) = flat_nasdaq.
Proof.
  destruct (to_dict_without_prev_close flat_nasdaq flat_nasdaq (NInt 7))
    as (_ & Hsame & Hback).
  split; [ exact Hsame | exact (Hback eq_refl) ].
Defined.

Lemma get_main_indices_single_day_witness :
  exists idx,
    In idx (fst (_get_main_indices one_day_yahoo))
    /\ prev_close idx = current idx.
Proof.
  eexists. split; [ left; reflexivity | ].
  edestruct (get_main_indices_single_day one_day_yahoo)
    as (price & Hcurrent & Hprev & _);
    [ reflexivity | cbn; lia | left; reflexivity | reflexivity | ].
  now rewrite Hcurrent, Hprev.
Defined.
